(** * whatsapp-calling-poc: the call bridge of [server.js]

    A shallow embedding of the signalling server: the session variables
    declared at the top of [server.js], the Socket.IO handlers, the
    [/call-events] webhook, [initiateWebRTCBridge] and the call-control
    helpers, followed by the properties of the bridge state machine.

    Conventions of the model.
    - A JavaScript string is the list of its UTF-16 code units.
    - A JavaScript value that comes from outside (webhook body, Socket.IO
      argument, REST response) is a [value]; numbers are integers.
    - What the WebRTC engine and the remote API answer is not computed by
      the program: every function that awaits them takes their answer as
      an argument, and every awaited operation settles.
    - Each handler is run from its first line to its last without another
      handler running in between.  A callback handed to [setTimeout] is
      recorded in the trace and is a function of its own.
    - The trace of a run holds what the statements of the handler send,
      post and schedule.  What the engine calls back on its own
      ([onicecandidate], which emits [browser-candidate] to the browser,
      [ontrack], the state changes) is not on it, and neither are the
      timers that only bound or delay an [await] of the run itself
      (lines 654, 928 and 1149).
    - [console.log] is left out.  Of the [console.error] lines the model
      keeps those of [initiateWebRTCBridge] and of its [accept] callback
      (lines 770, 774, 787), of the webhook (line 521) and of
      [browser-candidate] (line 87); the helpers that turn a failure
      into their result, and the outbound handlers, log without a mark
      on the trace. *)

From Stdlib Require Import List ZArith NArith Bool String Ascii Lia.
Import ListNotations.

Set Warnings "-register-all".

(** ** JavaScript strings *)

Module JsString.

Definition jsstring := list N.

Definition js (s : string) : jsstring :=
  map N_of_ascii (list_ascii_of_string s).

Fixpoint eqb (a b : jsstring) : bool :=
  match a, b with
  | [], [] => true
  | x :: a', y :: b' => N.eqb x y && eqb a' b'
  | _, _ => false
  end.

(** [startsWith p s]: [s.startsWith(p)]. *)
Fixpoint startsWith (p s : jsstring) : bool :=
  match p, s with
  | [], _ => true
  | x :: p', y :: s' => N.eqb x y && startsWith p' s'
  | _ :: _, [] => false
  end.

(** [includes s p]: [s.includes(p)]. *)
Fixpoint includes (s p : jsstring) : bool :=
  startsWith p s ||
  match s with
  | [] => false
  | _ :: s' => includes s' p
  end.

(** [replace s pat rep]: [s.replace(pat, rep)] for a string pattern [pat]
    and a replacement without [$]: the first occurrence only. *)
Fixpoint replace (s pat rep : jsstring) : jsstring :=
  if startsWith pat s then rep ++ skipn (List.length pat) s
  else match s with
       | [] => []
       | c :: s' => c :: replace s' pat rep
       end.

(** The characters the regular expression dot does not match. *)
Definition isLineTerminator (c : N) : bool :=
  N.eqb c 10 || N.eqb c 13 || N.eqb c 8232 || N.eqb c 8233.

(** The longest prefix the greedy [.*] matches, and what follows it. *)
Fixpoint dotStar (s : jsstring) : jsstring * jsstring :=
  match s with
  | [] => ([], [])
  | c :: s' =>
      if isLineTerminator c then ([], s)
      else let (line, rest) := dotStar s' in (c :: line, rest)
  end.

(** The global regular-expression replace of line 679: the pattern is a
    literal [lit] followed by a greedy dot-star, in one capture group, and
    the replacement is the capture followed by [ins].  Every match is the
    literal with the rest of its line, the scan resumes behind the match,
    and [ins] is written behind each match. *)
Fixpoint appendAfterLines (fuel : nat) (lit ins s : jsstring) : jsstring :=
  match fuel with
  | O => s
  | S fuel' =>
      match s with
      | [] => []
      | c :: s' =>
          if startsWith lit s then
            let (line, rest) := dotStar (skipn (List.length lit) s) in
            lit ++ line ++ ins ++ appendAfterLines fuel' lit ins rest
          else c :: appendAfterLines fuel' lit ins s'
      end
  end.

Definition replaceLines (lit ins s : jsstring) : jsstring :=
  appendAfterLines (List.length s) lit ins s.

Definition CRLF : jsstring := [13%N; 10%N].

End JsString.
Import JsString.

(** ** The two SDP patches of [initiateWebRTCBridge] *)

(** Lines 675-686: the provider offer as handed to
    [whatsappPc.setRemoteDescription]. *)
Definition modifiedWhatsappSdp (whatsappOfferSdp : jsstring) : jsstring :=
  if negb (includes whatsappOfferSdp (js "a=setup:actpass")) then
    replaceLines (js "a=fingerprint:") (CRLF ++ js "a=setup:actpass")
                 whatsappOfferSdp
  else whatsappOfferSdp.

(** Lines 750-755: the provider answer as sent with [pre_accept] and
    [accept]. *)
Definition finalWaSdp (waAnswerSdp : jsstring) : jsstring :=
  let s := replace waAnswerSdp (js "a=setup:actpass") (js "a=setup:active") in
  if negb (includes s (js "a=ice-options:trickle")) then
    replace s (js "a=group:BUNDLE 0")
            (js "a=group:BUNDLE 0" ++ CRLF ++ js "a=ice-options:trickle")
  else s.

(** ** JavaScript values *)

Module JsValue.

(** A value that reaches the server from outside.  The fields of an
    object are those of the parsed object, each name once. *)
Inductive value :=
| VUndefined
| VNull
| VBool (b : bool)
| VNum (n : Z)
| VStr (s : jsstring)
| VArr (items : list value)
| VObj (fields : list (jsstring * value)).

Definition truthy (v : value) : bool :=
  match v with
  | VUndefined | VNull => false
  | VBool b => b
  | VNum n => negb (Z.eqb n 0)
  | VStr s => match s with [] => false | _ => true end
  | VArr _ | VObj _ => true
  end.

Definition nullish (v : value) : bool :=
  match v with
  | VUndefined | VNull => true
  | _ => false
  end.

Fixpoint lookup (k : jsstring) (fs : list (jsstring * value)) : value :=
  match fs with
  | [] => VUndefined
  | (k', v) :: fs' => if eqb k k' then v else lookup k fs'
  end.

(** [field v k]: the property read [v.k] on a value that is neither
    [null] nor [undefined], for the property names the server reads
    (none of them is inherited, except [length] of arrays and strings). *)
Definition field (v : value) (k : jsstring) : value :=
  match v with
  | VObj fs => lookup k fs
  | VArr l => if eqb k (js "length") then VNum (Z.of_nat (List.length l))
              else VUndefined
  | VStr s => if eqb k (js "length") then VNum (Z.of_nat (List.length s))
              else VUndefined
  | _ => VUndefined
  end.

(** [first v]: the element read [v[0]] on a value that is neither [null]
    nor [undefined]. *)
Definition first (v : value) : value :=
  match v with
  | VArr l => match l with [] => VUndefined | x :: _ => x end
  | VStr s => match s with [] => VUndefined | c :: _ => VStr [c] end
  | VObj fs => lookup (js "0") fs
  | _ => VUndefined
  end.

(** Optional chaining: [v?.k] and [v?.[0]]. *)
Definition opt (v : value) (k : jsstring) : value :=
  if nullish v then VUndefined else field v k.

Definition optFirst (v : value) : value :=
  if nullish v then VUndefined else first v.

(** [a || b]. *)
Definition orElse (a b : value) : value := if truthy a then a else b.

(** [v === "lit"], [v === n] and [v === true]. *)
Definition isStr (v : value) (lit : jsstring) : bool :=
  match v with VStr s => eqb s lit | _ => false end.

Definition isNum (v : value) (n : Z) : bool :=
  match v with VNum m => Z.eqb m n | _ => false end.

Definition isTrue (v : value) : bool :=
  match v with VBool b => b | _ => false end.

(** [v > 0].  Numbers are integers in this model, and a string operand
    is read as an unsigned decimal integer; an array is first joined
    into a string, as the comparison does.  The other spellings of a
    number that JavaScript reads from a string (a sign, spaces, a
    fraction, an exponent, a radix prefix, [Infinity]) are not read.
    The server applies [> 0] to a [length] only: it is a string only
    when the webhook sends an object with a [length] member of its own
    where the provider sends an array. *)
Definition decimalPositive (s : jsstring) : bool :=
  match s with
  | [] => false
  | _ => forallb (fun c => N.leb 48 c && N.leb c 57) s
         && existsb (fun c => N.leb 49 c) s
  end.

Fixpoint joinedPositive (v : value) : bool :=
  match v with
  | VNum n => Z.ltb 0 n
  | VStr s => decimalPositive s
  | VArr (x :: nil) => joinedPositive x
  | _ => false
  end.

Definition gtZero (v : value) : bool :=
  match v with
  | VBool b => b
  | _ => joinedPositive v
  end.

(** [v.length > 0] for a truthy [v]. *)
Definition lengthGtZero (v : value) : bool := gtZero (field v (js "length")).

End JsValue.
Import JsValue.

(** ** The session and what the server does to the outside *)

Record Track := { trackId : N; isAudio : bool }.

(** A Socket.IO socket of a browser client. *)
Record Socket := { id : jsstring }.

(** What the server did to a peer connection: the descriptions it set,
    the tracks it added, and whether it called [close]. *)
Record RTCPeerConnection := {
  remoteDescription : option value;
  localDescription : option jsstring;
  senders : list Track;
  closed : bool
}.

Definition newPeerConnection : RTCPeerConnection :=
  {| remoteDescription := None; localDescription := None;
     senders := []; closed := false |}.

(** Lines 33-41: the variables of the call session. *)
Record Session := {
  browserPc : option RTCPeerConnection;
  browserStream : option (list Track);
  whatsappPc : option RTCPeerConnection;
  whatsappStream : option (list Track);
  browserOfferSdp : value;
  whatsappOfferSdp : value;
  browserSocket : option Socket;
  currentCallId : value;
  callInProgress : bool
}.

Definition initialSession : Session :=
  {| browserPc := None; browserStream := None;
     whatsappPc := None; whatsappStream := None;
     browserOfferSdp := VNull; whatsappOfferSdp := VNull;
     browserSocket := None; currentCallId := VNull;
     callInProgress := false |}.

Definition setBrowserPc (x : option RTCPeerConnection) (s : Session) :=
  {| browserPc := x; browserStream := browserStream s;
     whatsappPc := whatsappPc s; whatsappStream := whatsappStream s;
     browserOfferSdp := browserOfferSdp s;
     whatsappOfferSdp := whatsappOfferSdp s;
     browserSocket := browserSocket s; currentCallId := currentCallId s;
     callInProgress := callInProgress s |}.

Definition setBrowserStream (x : option (list Track)) (s : Session) :=
  {| browserPc := browserPc s; browserStream := x;
     whatsappPc := whatsappPc s; whatsappStream := whatsappStream s;
     browserOfferSdp := browserOfferSdp s;
     whatsappOfferSdp := whatsappOfferSdp s;
     browserSocket := browserSocket s; currentCallId := currentCallId s;
     callInProgress := callInProgress s |}.

Definition setWhatsappPc (x : option RTCPeerConnection) (s : Session) :=
  {| browserPc := browserPc s; browserStream := browserStream s;
     whatsappPc := x; whatsappStream := whatsappStream s;
     browserOfferSdp := browserOfferSdp s;
     whatsappOfferSdp := whatsappOfferSdp s;
     browserSocket := browserSocket s; currentCallId := currentCallId s;
     callInProgress := callInProgress s |}.

Definition setWhatsappStream (x : option (list Track)) (s : Session) :=
  {| browserPc := browserPc s; browserStream := browserStream s;
     whatsappPc := whatsappPc s; whatsappStream := x;
     browserOfferSdp := browserOfferSdp s;
     whatsappOfferSdp := whatsappOfferSdp s;
     browserSocket := browserSocket s; currentCallId := currentCallId s;
     callInProgress := callInProgress s |}.

Definition setBrowserOfferSdp (x : value) (s : Session) :=
  {| browserPc := browserPc s; browserStream := browserStream s;
     whatsappPc := whatsappPc s; whatsappStream := whatsappStream s;
     browserOfferSdp := x;
     whatsappOfferSdp := whatsappOfferSdp s;
     browserSocket := browserSocket s; currentCallId := currentCallId s;
     callInProgress := callInProgress s |}.

Definition setWhatsappOfferSdp (x : value) (s : Session) :=
  {| browserPc := browserPc s; browserStream := browserStream s;
     whatsappPc := whatsappPc s; whatsappStream := whatsappStream s;
     browserOfferSdp := browserOfferSdp s;
     whatsappOfferSdp := x;
     browserSocket := browserSocket s; currentCallId := currentCallId s;
     callInProgress := callInProgress s |}.

Definition setBrowserSocket (x : option Socket) (s : Session) :=
  {| browserPc := browserPc s; browserStream := browserStream s;
     whatsappPc := whatsappPc s; whatsappStream := whatsappStream s;
     browserOfferSdp := browserOfferSdp s;
     whatsappOfferSdp := whatsappOfferSdp s;
     browserSocket := x; currentCallId := currentCallId s;
     callInProgress := callInProgress s |}.

Definition setCurrentCallId (x : value) (s : Session) :=
  {| browserPc := browserPc s; browserStream := browserStream s;
     whatsappPc := whatsappPc s; whatsappStream := whatsappStream s;
     browserOfferSdp := browserOfferSdp s;
     whatsappOfferSdp := whatsappOfferSdp s;
     browserSocket := browserSocket s; currentCallId := x;
     callInProgress := callInProgress s |}.

Definition setCallInProgress (x : bool) (s : Session) :=
  {| browserPc := browserPc s; browserStream := browserStream s;
     whatsappPc := whatsappPc s; whatsappStream := whatsappStream s;
     browserOfferSdp := browserOfferSdp s;
     whatsappOfferSdp := whatsappOfferSdp s;
     browserSocket := browserSocket s; currentCallId := currentCallId s;
     callInProgress := x |}.

(** The requests to the Graph API, and the function that posts them. *)
Inductive apiRequest :=
| Connect (to : jsstring) (sdp : jsstring)
| Answer (callId : value) (action : jsstring) (sdp : jsstring)
| Terminate (callId : value)
| PermissionRequest (to : jsstring).

Inductive issuer :=
| ByCheckCallPermission
| ByInitiateDirectCall
| ByAnswerCallToWhatsApp
| ByTerminateCall
| BySendCallPermissionRequest.

(** The callbacks handed to [setTimeout]. *)
Inductive timerTask :=
| AcceptTask (sdp : jsstring)
| ClearOffersTask
| AutoCallTask (waId callerName : value).

Inductive event :=
| SocketEmit (to : Socket) (name : jsstring) (args : list value)
| IoEmit (name : jsstring) (args : list value)
| Post (by_ : issuer) (req : apiRequest)
| SendStatus (code : Z)
| SetTimeout (task : timerTask) (ms : Z)
| ConsoleError (msg : jsstring).

(** What [axios.post] comes back with: the response data, or a rejection
    with [error.message] and [error.response?.data]. *)
Inductive http :=
| Resolved (data : value)
| Rejected (message : jsstring) (responseData : value).

Inductive exn :=
| TypeError (message : jsstring)
| ReferenceError (message : jsstring)
| EngineError (message : jsstring)
| AxiosError (message : jsstring) (responseData : value).

Definition messageOf (e : exn) : jsstring :=
  match e with
  | TypeError m | ReferenceError m | EngineError m | AxiosError m _ => m
  end.

(** [error.response?.data]. *)
Definition responseDataOf (e : exn) : value :=
  match e with
  | AxiosError _ d => d
  | _ => VUndefined
  end.

(** ** Statements: session in, result, session and trace out *)

Inductive outcome (A : Type) :=
| Returns (a : A)
| Throws (e : exn).
Arguments Returns {A} a.
Arguments Throws {A} e.

Definition M (A : Type) : Type := Session -> outcome A * Session * list event.

Definition ret {A} (a : A) : M A := fun s => (Returns a, s, []).

Definition raise {A} (e : exn) : M A := fun s => (Throws e, s, []).

Definition bind {A B} (m : M A) (k : A -> M B) : M B :=
  fun s =>
    match m s with
    | (Returns a, s1, t1) =>
        match k a s1 with
        | (r, s2, t2) => (r, s2, t1 ++ t2)
        end
    | (Throws e, s1, t1) => (Throws e, s1, t1)
    end.

Definition tryCatch {A} (m : M A) (handler : exn -> M A) : M A :=
  fun s =>
    match m s with
    | (Throws e, s1, t1) =>
        match handler e s1 with
        | (r, s2, t2) => (r, s2, t1 ++ t2)
        end
    | done => done
    end.

Definition getSession : M Session := fun s => (Returns s, s, []).

Definition modify (f : Session -> Session) : M unit :=
  fun s => (Returns tt, f s, []).

Definition tell (e : event) : M unit := fun s => (Returns tt, s, [e]).

Definition when (b : bool) (m : M unit) : M unit := if b then m else ret tt.

Notation "x <- m ;; k" := (bind m (fun x => k))
  (at level 61, m at next level, right associativity).
Notation "m ;;; k" := (bind m (fun _ => k))
  (at level 61, right associativity).

Definition sessionOf {A} (r : outcome A * Session * list event) : Session :=
  snd (fst r).
Definition traceOf {A} (r : outcome A * Session * list event) : list event :=
  snd r.
Definition resultOf {A} (r : outcome A * Session * list event) : outcome A :=
  fst (fst r).

(** ** Call-control helpers *)

Definition emit (to : Socket) (name : string) (args : list value) : M unit :=
  tell (SocketEmit to (js name) args).

Definition ioEmit (name : string) (args : list value) : M unit :=
  tell (IoEmit (js name) args).

Definition consoleError (msg : string) : M unit := tell (ConsoleError (js msg)).

Definition setTimeout (task : timerTask) (ms : Z) : M unit :=
  tell (SetTimeout task ms).

(** [await axios.post(...)]: the request goes out, and the call returns
    the response data or throws. *)
Definition axiosPost (who : issuer) (req : apiRequest) (reply : http) : M value :=
  tell (Post who req) ;;;
  match reply with
  | Resolved data => ret data
  | Rejected msg rdata => raise (AxiosError msg rdata)
  end.

(** Lines 797-832. *)
Definition answerCallToWhatsApp (callId : value) (sdp : jsstring)
    (action : string) (reply : http) : M bool :=
  tryCatch
    (data <- axiosPost ByAnswerCallToWhatsApp (Answer callId (js action) sdp) reply ;;
     ret (isTrue (opt data (js "success"))))
    (fun _ => ret false).

(** Lines 838-874. *)
Definition terminateCall (callId : value) (reply : http) : M value :=
  tryCatch
    (axiosPost ByTerminateCall (Terminate callId) reply)
    (fun error =>
       ret (VObj [(js "success", VBool false);
                  (js "error", VStr (messageOf error))])).

(** ** [initiateWebRTCBridge] *)

(** What the engine and the provider answer during one bridging run. *)
Record BridgeEnv := {
  (** [browserPc.setRemoteDescription] resolves *)
  browserRemoteOk : bool;
  (** [whatsappPc.setRemoteDescription] resolves *)
  whatsappRemoteOk : bool;
  (** the tracks that [browserPc.ontrack] has put into [browserStream]
      when line 695 looks at it *)
  browserTracks : list Track;
  (** the track of the silent oscillator; [None] when building it throws *)
  dummyTrack : option Track;
  (** [event.streams[0]] of [whatsappPc.ontrack]; [None] when the five
      seconds pass first *)
  whatsappTracks : option (list Track);
  (** [browserPc.createAnswer] and [setLocalDescription]; [None] when one
      of them rejects *)
  browserAnswer : option jsstring;
  (** the same on [whatsappPc] *)
  waAnswer : option jsstring;
  (** the reply to the [pre_accept] request *)
  preAcceptReply : http
}.

Definition getAudioTracks (stream : option (list Track)) : list Track :=
  match stream with
  | Some l => filter isAudio l
  | None => []
  end.

Definition setRemote (sdp : value) (pc : option RTCPeerConnection) :=
  match pc with
  | Some c => Some {| remoteDescription := Some sdp;
                      localDescription := localDescription c;
                      senders := senders c; closed := closed c |}
  | None => None
  end.

Definition setLocal (sdp : jsstring) (pc : option RTCPeerConnection) :=
  match pc with
  | Some c => Some {| remoteDescription := remoteDescription c;
                      localDescription := Some sdp;
                      senders := senders c; closed := closed c |}
  | None => None
  end.

Definition addTracks (l : list Track) (pc : option RTCPeerConnection) :=
  match pc with
  | Some c => Some {| remoteDescription := remoteDescription c;
                      localDescription := localDescription c;
                      senders := senders c ++ l; closed := closed c |}
  | None => None
  end.

(** Lines 675-686 on whatever [whatsappOfferSdp] holds: a string is
    patched; an array has [includes] but no [replace]; nothing else has
    [includes]. *)
Definition modifiedWhatsappSdpOf (offer : value) : M value :=
  match offer with
  | VStr sdp => ret (VStr (modifiedWhatsappSdp sdp))
  | VArr l =>
      if existsb (fun x => isStr x (js "a=setup:actpass")) l then ret offer
      else raise (TypeError (js "modifiedWhatsappSdp.replace is not a function"))
  | _ => raise (TypeError (js "modifiedWhatsappSdp.includes is not a function"))
  end.

Definition emitToBrowser (name : string) (args : list value) : M unit :=
  s <- getSession ;;
  match browserSocket s with
  | Some sock => emit sock name args
  | None => raise (TypeError (js "Cannot read properties of null"))
  end.

Definition engine (ok : bool) (what : string) : M unit :=
  if ok then ret tt else raise (EngineError (js what)).

(** Lines 578-757: the two legs, their tracks and their answers.  The
    result is the answer for the provider, patched. *)
Definition negotiate (env : BridgeEnv) : M jsstring :=
  (* browser peer connection *)
  modify (setBrowserPc (Some newPeerConnection)) ;;;
  modify (setBrowserStream (Some [])) ;;;
  s <- getSession ;;
  engine (browserRemoteOk env) "setRemoteDescription" ;;;
  modify (fun s => setBrowserPc (setRemote (browserOfferSdp s) (browserPc s)) s) ;;;
  (* provider peer connection *)
  modify (setWhatsappPc (Some newPeerConnection)) ;;;
  sdp <- modifiedWhatsappSdpOf (whatsappOfferSdp s) ;;
  engine (whatsappRemoteOk env) "setRemoteDescription" ;;;
  modify (fun s => setWhatsappPc (setRemote sdp (whatsappPc s)) s) ;;;
  (* the silent track when the browser sent no audio *)
  modify (setBrowserStream (Some (browserTracks env))) ;;;
  s <- getSession ;;
  match getAudioTracks (browserStream s) with
  | [] =>
      match dummyTrack env with
      | Some t => modify (setBrowserStream (Some (browserTracks env ++ [t])))
      | None => raise (EngineError (js "node-web-audio-api"))
      end
  | _ => ret tt
  end ;;;
  (* browser microphone to the provider *)
  modify (fun s =>
            setWhatsappPc (addTracks (getAudioTracks (browserStream s))
                                     (whatsappPc s)) s) ;;;
  (* the wait for the provider track *)
  match whatsappTracks env with
  | Some l => modify (setWhatsappStream (Some l))
  | None => ret tt
  end ;;;
  (* provider audio to the browser *)
  modify (fun s =>
            setBrowserPc (addTracks (getAudioTracks (whatsappStream s))
                                    (browserPc s)) s) ;;;
  (* the two answers *)
  match browserAnswer env with
  | Some a =>
      modify (fun s => setBrowserPc (setLocal a (browserPc s)) s) ;;;
      emitToBrowser "browser-answer" [VStr a]
  | None => raise (EngineError (js "createAnswer"))
  end ;;;
  match waAnswer env with
  | Some a =>
      modify (fun s => setWhatsappPc (setLocal a (whatsappPc s)) s) ;;;
      ret (finalWaSdp a)
  | None => raise (EngineError (js "createAnswer"))
  end.

(** Lines 759-785: [pre_accept], the timer for [accept], the timer that
    forgets the offers. *)
Definition callControl (env : BridgeEnv) (finalSdp : jsstring) : M unit :=
  s <- getSession ;;
  preAcceptSuccess <-
    answerCallToWhatsApp (currentCallId s) finalSdp "pre_accept"
                         (preAcceptReply env) ;;
  (if preAcceptSuccess then setTimeout (AcceptTask finalSdp) 1500
   else
     consoleError "Pre-accept failed. Aborting accept step." ;;;
     modify (setCallInProgress false)) ;;;
  setTimeout ClearOffersTask 5000.

(** Lines 577-785, the [try] block. *)
Definition bridgeBody (env : BridgeEnv) : M unit :=
  finalSdp <- negotiate env ;;
  callControl env finalSdp.

(** Lines 567-791: what follows the two guards. *)
Definition startBridge (env : BridgeEnv) : M unit :=
  modify (setCallInProgress true) ;;;
  tryCatch (bridgeBody env)
    (fun _ =>
       consoleError "Error in WebRTC bridge:" ;;;
       modify (setCallInProgress false)).

(** Lines 545-792. *)
Definition initiateWebRTCBridge (env : BridgeEnv) : M unit :=
  s <- getSession ;;
  if callInProgress s then ret tt
  else if negb (truthy (browserOfferSdp s))
          || negb (truthy (whatsappOfferSdp s))
          || match browserSocket s with Some _ => false | None => true end
  then ret tt
  else startBridge env.

(** Lines 764-772: the callback that sends [accept]. *)
Definition acceptTimer (finalSdp : jsstring) (reply : http) : M unit :=
  s <- getSession ;;
  acceptSuccess <- answerCallToWhatsApp (currentCallId s) finalSdp "accept" reply ;;
  s <- getSession ;;
  match acceptSuccess, browserSocket s with
  | true, Some sock => emit sock "start-browser-timer" []
  | _, _ => consoleError "Accept failed"
  end.

(** Lines 782-785: the callback that forgets the two offers. *)
Definition clearOffersTimer : M unit :=
  modify (setBrowserOfferSdp VNull) ;;;
  modify (setWhatsappOfferSdp VNull).

(** ** The permission gate and the outbound call *)

Record PermissionStatus := { hasPermission : bool; status : jsstring }.

(** What the engine and the provider answer to the permission probe. *)
Record ProbeEnv := {
  (** [pc.localDescription.sdp] of the probe offer; [None] when
      [createOffer] or [setLocalDescription] rejects *)
  probeOffer : option jsstring;
  (** the reply to the probe [connect] request *)
  probeReply : http;
  (** the reply to the [terminate] request that ends the probe call *)
  probeTerminateReply : http
}.

(** [error.response?.data?.error?.code] and [...?.message]. *)
Definition errorCodeOf (rdata : value) : value :=
  opt (opt rdata (js "error")) (js "code").

Definition errorMessageOf (rdata : value) : value :=
  opt (opt rdata (js "error")) (js "message").

(** Lines 1131-1243.  The peer connection of the probe is local to the
    function, which closes it before it returns; it is no leg of the
    session. *)
Definition checkCallPermission (phoneNumber : jsstring) (env : ProbeEnv)
  : M PermissionStatus :=
  tryCatch
    (match probeOffer env with
     | None => raise (EngineError (js "createOffer"))
     | Some sdp =>
         tryCatch
           (data <- axiosPost ByCheckCallPermission (Connect phoneNumber sdp)
                              (probeReply env) ;;
            if isTrue (opt data (js "success")) then
              when (truthy (field data (js "call_id")))
                   (tryCatch
                      (_ <- axiosPost ByCheckCallPermission
                                      (Terminate (field data (js "call_id")))
                                      (probeTerminateReply env) ;;
                       ret tt)
                      (fun _ => ret tt)) ;;;
              ret {| hasPermission := true; status := js "granted" |}
            else ret {| hasPermission := false; status := js "unknown" |})
           (fun error =>
              if isNum (errorCodeOf (responseDataOf error)) 138006
              then ret {| hasPermission := false; status := js "denied" |}
              else ret {| hasPermission := false; status := js "error" |})
     end)
    (fun _ => ret {| hasPermission := false; status := js "error" |}).

Record DirectCallResult := {
  success : bool;
  call_id : value;
  error : value;
  data : value
}.

Record DirectCallEnv := {
  (** the offer sent with the call; [None] when the engine rejects *)
  directOffer : option jsstring;
  (** the reply to the [connect] request *)
  directReply : http
}.

(** [v.includes("lit")] as a method call: strings and arrays have it. *)
Definition includesMethod (v : value) (lit : string) : M bool :=
  match v with
  | VStr s => ret (includes s (js lit))
  | VArr l => ret (existsb (fun x => isStr x (js lit)) l)
  | _ => raise (TypeError (js "errorMsg.includes is not a function"))
  end.

(** Lines 880-1025. *)
Definition initiateDirectCall (phoneNumber : jsstring) (env : DirectCallEnv)
  : M DirectCallResult :=
  tryCatch
    (match directOffer env with
     | None => raise (EngineError (js "createOffer"))
     | Some sdp =>
         d <- axiosPost ByInitiateDirectCall (Connect phoneNumber sdp)
                        (directReply env) ;;
         if isTrue (opt d (js "success")) || truthy (opt d (js "id")) then
           ret {| success := true;
                  call_id := orElse (opt d (js "call_id")) (opt d (js "id"));
                  error := VUndefined; data := VUndefined |}
         else
           ret {| success := false; call_id := VUndefined;
                  error := VStr (js "API returned unsuccessful response");
                  data := d |}
     end)
    (fun e =>
       let errorMsg :=
         orElse (errorMessageOf (responseDataOf e)) (VStr (messageOf e)) in
       let errorCode := errorCodeOf (responseDataOf e) in
       ongoing <- includesMethod errorMsg "already ongoing" ;;
       progress <- (if ongoing then ret true
                    else includesMethod errorMsg "already in progress") ;;
       busy <- (if progress then ret true else includesMethod errorMsg "busy") ;;
       let userFriendlyError :=
         if busy then
           VStr (js "The recipient is already on another call. Please try again later.")
         else if isNum errorCode 138010 then
           VStr (js "Call rate limit reached. Please wait a moment before trying again.")
         else if isNum errorCode 138006 then
           VStr (js "No approved call permission from recipient. Please request permission first.")
         else errorMsg in
       ret {| success := false; call_id := VUndefined;
              error := userFriendlyError; data := responseDataOf e |}).

Record PermissionRequestResult := {
  sent : bool;
  messageId : value;
  failure : value
}.

(** Lines 1249-1311; [sent] is the [success] field of the result and
    [failure] its [error] field. *)
Definition sendCallPermissionRequest (phoneNumber : jsstring) (reply : http)
  : M PermissionRequestResult :=
  tryCatch
    (d <- axiosPost BySendCallPermissionRequest (PermissionRequest phoneNumber)
                    reply ;;
     ret {| sent := true;
            messageId := opt (optFirst (opt d (js "messages"))) (js "id");
            failure := VUndefined |})
    (fun e =>
       let errorData := orElse (responseDataOf e) (VObj []) in
       if isNum (errorCodeOf errorData) 138009 then
         ret {| sent := false; messageId := VUndefined;
                failure := VStr (js "Rate limit reached for permission requests to this number. WhatsApp allows only one permission request every 24 hours.") |}
       else
         ret {| sent := false; messageId := VUndefined;
                failure := orElse (errorMessageOf errorData)
                                  (VStr (messageOf e)) |}).

(** [phoneNumber.replace(/^\+/, '')]. *)
Definition formatNumber (phoneNumber : jsstring) : jsstring :=
  match phoneNumber with
  | 43%N :: rest => rest
  | _ => phoneNumber
  end.

Record SmartCallEnv := {
  probe : ProbeEnv;
  direct : DirectCallEnv;
  requestReply : http
}.

Definition permissionRequestFlow (socket : Socket) (formattedNumber : jsstring)
    (reply : http) : M unit :=
  result <- sendCallPermissionRequest formattedNumber reply ;;
  if sent result then
    emit socket "permission-request-sent"
         [VObj [(js "phoneNumber", VStr formattedNumber);
                (js "messageId", messageId result)]]
  else
    emit socket "permission-request-failed"
         [orElse (failure result) (VStr (js "Unknown error"))].

(** Lines 158-250: the [try] of the [smart-call] handler, for a
    [phoneNumber] that is a string.  [onSmartCall] is the handler on
    whatever argument the browser sends. *)
Definition smartCall (socket : Socket) (phoneNumber : jsstring)
    (env : SmartCallEnv) : M unit :=
  tryCatch
    (let formattedNumber := formatNumber phoneNumber in
     modify (setBrowserSocket (Some socket)) ;;;
     permissionStatus <-
       tryCatch (checkCallPermission formattedNumber (probe env))
                (fun _ => ret {| hasPermission := false; status := js "error" |}) ;;
     if hasPermission permissionStatus then
       emit socket "call-status"
            [VStr (js "Permission already granted. Making call directly...")] ;;;
       result <- initiateDirectCall formattedNumber (direct env) ;;
       if success result then
         emit socket "call-initiated" [] ;;;
         modify (setCurrentCallId (call_id result))
       else if isNum (errorCodeOf (data result)) 138006 then
         emit socket "call-failed"
              [VStr (js "No approved call permission from recipient. Sending permission request...")] ;;;
         emit socket "permission-needed"
              [VObj [(js "phoneNumber", VStr formattedNumber)]] ;;;
         permissionRequestFlow socket formattedNumber (requestReply env)
       else
         emit socket "call-failed"
              [orElse (error result) (VStr (js "Failed to initiate call"))]
     else
       emit socket "permission-needed"
            [VObj [(js "phoneNumber", VStr formattedNumber)]] ;;;
       permissionRequestFlow socket formattedNumber (requestReply env))
    (fun e => emit socket "call-failed" [VStr (messageOf e)]).

(** ** The other Socket.IO handlers *)

(** Lines 52-69: [browser-offer].  Line 54 calls [sdp.substring], which a
    value other than a string does not have. *)
Definition browserOffer (socket : Socket) (sdp callId : value)
    (env : BridgeEnv) : M unit :=
  match sdp with
  | VStr _ => ret tt
  | _ => raise (TypeError (js "sdp.substring is not a function"))
  end ;;;
  modify (setBrowserOfferSdp sdp) ;;;
  modify (setBrowserSocket (Some socket)) ;;;
  when (truthy callId) (modify (setCurrentCallId callId)) ;;;
  initiateWebRTCBridge env.

(** Lines 92-102: [reject-call].  No [rejectCall] is declared or imported
    in [server.js], so the call on line 96 throws. *)
Definition rejectCallHandler (socket : Socket) (callId : value) : M unit :=
  (raise (ReferenceError (js "rejectCall is not defined")) : M unit) ;;;
  modify (setCallInProgress false).

(** Lines 105-129: [accept-call]. *)
Definition acceptCall (socket : Socket) (callId : value) (env : BridgeEnv)
  : M unit :=
  modify (setBrowserSocket (Some socket)) ;;;
  modify (setCurrentCallId callId) ;;;
  s <- getSession ;;
  if truthy (whatsappOfferSdp s) && negb (truthy (browserOfferSdp s)) then ret tt
  else if truthy (whatsappOfferSdp s) && truthy (browserOfferSdp s)
  then initiateWebRTCBridge env
  else ret tt.

(** Lines 132-143: [terminate-call]. *)
Definition terminateCallHandler (socket : Socket) (callId : value)
    (reply : http) : M unit :=
  _ <- terminateCall callId reply ;;
  modify (setCallInProgress false).

(** Lines 146-154: [disconnect]. *)
Definition disconnect (socket : Socket) : M unit :=
  s <- getSession ;;
  when (match browserSocket s with
        | Some b => eqb (id socket) (id b)
        | None => false
        end)
       (modify (setCallInProgress false)).

(** ** The webhook: [app.post("/call-events")] *)

(** [v.k] where [v] may be [null] or [undefined]. *)
Definition member (v : value) (k : string) : M value :=
  if nullish v then raise (TypeError (js "Cannot read properties of undefined"))
  else ret (field v (js k)).

(** Line 364 calls [whatsappOfferSdp?.substring(0, 100)]: nothing happens
    on [null] and [undefined], and only a string has the method. *)
Definition logOfferPrefix (offer : value) : M unit :=
  match offer with
  | VUndefined | VNull | VStr _ => ret tt
  | _ => raise (TypeError (js "whatsappOfferSdp?.substring is not a function"))
  end.

(** Lines 354-389: a call event that has an id and an event name. *)
Definition callEvent (call : value) (env : BridgeEnv) : M unit :=
  let callId := field call (js "id") in
  modify (setCurrentCallId callId) ;;;
  if isStr (field call (js "event")) (js "connect") then
    modify (setWhatsappOfferSdp (opt (opt call (js "session")) (js "sdp"))) ;;;
    s <- getSession ;;
    logOfferPrefix (whatsappOfferSdp s) ;;;
    initiateWebRTCBridge env
  else if isStr (field call (js "event")) (js "terminate") then
    ioEmit "call-ended" [] ;;;
    modify (setCallInProgress false)
  else ret tt.

(** Lines 342-389.  The result tells whether the handler has returned
    (line 351) or goes on to line 519. *)
Definition callBranch (value : value) (env : BridgeEnv) : M bool :=
  let call := first (field value (js "calls")) in
  if negb (truthy call) || negb (truthy (field call (js "id")))
     || negb (truthy (field call (js "event")))
  then tell (SendStatus 200) ;;; ret true
  else callEvent call env ;;; ret false.

(** Lines 392-417. *)
Definition permissionsBranch (value : value) : M unit :=
  let permission := first (field value (js "call_permissions")) in
  waId <- member permission "wa_id" ;;
  status <- member permission "status" ;;
  let update := VObj [(js "phoneNumber", waId); (js "status", status)] in
  ioEmit "call-permission-update" [update] ;;;
  s <- getSession ;;
  match browserSocket s with
  | Some b => emit b "call-permission-update" [update]
  | None => ret tt
  end.

(** Lines 419-430. *)
Definition statusesBranch (value : value) : M unit :=
  let status := first (field value (js "statuses")) in
  st <- member status "status" ;;
  when (isStr st (js "delivered") || isStr st (js "read"))
       (ioEmit "message-status-update"
               [VObj [(js "messageId", field status (js "id"));
                      (js "status", st)]]).

(** Lines 432-517. *)
Definition messagesBranch (value : value) : M unit :=
  let message := first (field value (js "messages")) in
  from <- member message "from" ;;
  let interactive := field message (js "interactive") in
  if isStr (field message (js "type")) (js "interactive")
     && isStr (opt interactive (js "type")) (js "call_permission_reply")
     && truthy (opt interactive (js "call_permission_reply"))
  then
    let permissionReply := field interactive (js "call_permission_reply") in
    let response := field permissionReply (js "response") in
    let waId := from in
    let callerName :=
      orElse (opt (opt (optFirst (opt value (js "contacts"))) (js "profile"))
                  (js "name"))
             (VStr (js "Unknown User")) in
    let status :=
      if isStr response (js "accept") then js "granted" else js "denied" in
    ioEmit "call-permission-update"
           [VObj [(js "phoneNumber", waId); (js "callerName", callerName);
                  (js "status", VStr status)]] ;;;
    s <- getSession ;;
    match browserSocket s with
    | Some b =>
        emit b "call-permission-update"
             [VObj [(js "phoneNumber", waId); (js "status", VStr status)]] ;;;
        when (eqb status (js "granted") && truthy waId)
             (emit b "call-status"
                   [VStr (js "Permission granted! Initiating call automatically...")] ;;;
              setTimeout (AutoCallTask waId callerName) 1000)
    | None => ret tt
    end
  else ret tt.

Definition present (value : value) (k : string) : bool :=
  truthy (opt value (js k)) && lengthGtZero (field value (js k)).

(** Lines 342-517: the four kinds of payload. *)
Definition dispatch (value : value) (env : BridgeEnv) : M bool :=
  if present value "calls" then callBranch value env
  else if present value "call_permissions" then
    permissionsBranch value ;;; ret false
  else if present value "statuses" then statusesBranch value ;;; ret false
  else if present value "messages" then messagesBranch value ;;; ret false
  else ret false.

(** Lines 331-524. *)
Definition callEvents (body : value) (env : BridgeEnv) : M unit :=
  tryCatch
    (let entry := optFirst (opt body (js "entry")) in
     let change := optFirst (opt entry (js "changes")) in
     let value := opt change (js "value") in
     returned <- dispatch value env ;;
     if returned then ret tt else tell (SendStatus 200))
    (fun _ =>
       consoleError "Error processing /call-events webhook:" ;;;
       tell (SendStatus 200)).

(** A [/call-events] body with one call event and one contact. *)
Definition callEventBody (call contact : value) : value :=
  VObj [(js "entry",
         VArr [VObj [(js "changes",
                      VArr [VObj [(js "value",
                                   VObj [(js "calls", VArr [call]);
                                         (js "contacts", VArr [contact])])]])]])].

(** ** Vocabulary of the properties *)

(** Every event of every run of [m] satisfies [P]. *)
Definition emits (P : event -> Prop) {A} (m : M A) : Prop :=
  forall s, Forall P (traceOf (m s)).

(** The status codes sent on the HTTP response, in order. *)
Definition statusCodes (t : list event) : list Z :=
  flat_map (fun e => match e with SendStatus c => [c] | _ => [] end) t.

Definition notStatus (e : event) : Prop :=
  match e with SendStatus _ => False | _ => True end.

(** [answerCallToWhatsApp] reads this reply as a success: the request
    resolved and [response.data?.success === true]. *)
Definition succeeded (reply : http) : bool :=
  match reply with
  | Resolved d => isTrue (opt d (js "success"))
  | Rejected _ _ => false
  end.

(** The event is [socket.emit(name, ...)] on some socket. *)
Definition isEmitOf (name : string) (e : event) : bool :=
  match e with
  | SocketEmit _ n _ => eqb n (js name)
  | _ => false
  end.

(** The event is a request posted by [who]. *)
Definition isPostBy (who : issuer) (e : event) : bool :=
  match e, who with
  | Post ByCheckCallPermission _, ByCheckCallPermission
  | Post ByInitiateDirectCall _, ByInitiateDirectCall
  | Post ByAnswerCallToWhatsApp _, ByAnswerCallToWhatsApp
  | Post ByTerminateCall _, ByTerminateCall
  | Post BySendCallPermissionRequest _, BySendCallPermissionRequest => true
  | _, _ => false
  end.

(** The event is a [pre_accept] or [accept] request with this action. *)
Definition isAnswerWith (action : string) (e : event) : bool :=
  match e with
  | Post _ (Answer _ a _) => eqb a (js action)
  | _ => false
  end.

(** The event schedules the callback that sends [accept]. *)
Definition isAcceptTimer (e : event) : bool :=
  match e with
  | SetTimeout (AcceptTask _) _ => true
  | _ => false
  end.

(** The two legs as the session holds them. *)
Definition legs (s : Session) : option RTCPeerConnection * option RTCPeerConnection :=
  (browserPc s, whatsappPc s).

(** The leg exists and [close] was not called on it. *)
Definition isOpen (pc : option RTCPeerConnection) : bool :=
  match pc with
  | Some c => negb (closed c)
  | None => false
  end.

(** ** A call used in the examples *)

Definition socketA : Socket := {| id := js "socket-A" |}.

Definition browserSdp : jsstring :=
  js "v=0" ++ CRLF ++ js "m=audio 9 UDP/TLS/RTP/SAVPF 111" ++ CRLF
  ++ js "a=fingerprint:sha-256 11:22" ++ CRLF ++ js "a=setup:actpass" ++ CRLF.

Definition providerSdp : jsstring :=
  js "v=0" ++ CRLF ++ js "a=group:BUNDLE 0" ++ CRLF
  ++ js "m=audio 3480 UDP/TLS/RTP/SAVPF 111" ++ CRLF
  ++ js "a=fingerprint:sha-256 AA:BB" ++ CRLF.

Definition providerAnswerSdp : jsstring :=
  js "v=0" ++ CRLF ++ js "a=group:BUNDLE 0" ++ CRLF
  ++ js "m=audio 9 UDP/TLS/RTP/SAVPF 111" ++ CRLF
  ++ js "a=fingerprint:sha-256 CC:DD" ++ CRLF ++ js "a=setup:active" ++ CRLF.

Definition successReply : http :=
  Resolved (VObj [(js "success", VBool true)]).

Definition failureReply : http :=
  Resolved (VObj [(js "success", VBool false)]).

(** A run in which the engine delivers everything and [pre_accept] is
    accepted. *)
Definition happyEnv : BridgeEnv :=
  {| browserRemoteOk := true;
     whatsappRemoteOk := true;
     browserTracks := [ {| trackId := 1; isAudio := true |} ];
     dummyTrack := Some {| trackId := 0; isAudio := true |};
     whatsappTracks := Some [ {| trackId := 2; isAudio := true |} ];
     browserAnswer := Some (js "v=0" ++ CRLF ++ js "a=setup:active" ++ CRLF);
     waAnswer := Some providerAnswerSdp;
     preAcceptReply := successReply |}.

(** The same run with [pre_accept] refused. *)
Definition refusedEnv : BridgeEnv :=
  {| browserRemoteOk := true;
     whatsappRemoteOk := true;
     browserTracks := [ {| trackId := 1; isAudio := true |} ];
     dummyTrack := Some {| trackId := 0; isAudio := true |};
     whatsappTracks := Some [ {| trackId := 2; isAudio := true |} ];
     browserAnswer := Some (js "v=0" ++ CRLF ++ js "a=setup:active" ++ CRLF);
     waAnswer := Some providerAnswerSdp;
     preAcceptReply := failureReply |}.

(** The [calls[0]] entry of a [connect] webhook and of a [terminate]
    webhook. *)
Definition connectCall (callId : string) (sdp : jsstring) : value :=
  VObj [(js "id", VStr (js callId)); (js "event", VStr (js "connect"));
        (js "session", VObj [(js "sdp_type", VStr (js "offer"));
                             (js "sdp", VStr sdp)])].

Definition terminateCallEvent (callId : string) : value :=
  VObj [(js "id", VStr (js callId)); (js "event", VStr (js "terminate"))].

Definition contactA : value :=
  VObj [(js "wa_id", VStr (js "15550001111"));
        (js "profile", VObj [(js "name", VStr (js "Ada"))])].

(** The session after the browser offer and then the [connect] webhook
    of call [abc123], bridged without a failure. *)
Definition bridgedSession : Session :=
  sessionOf
    (callEvents (callEventBody (connectCall "abc123" providerSdp) contactA)
                happyEnv
                (sessionOf (browserOffer socketA (VStr browserSdp) VUndefined
                                         happyEnv initialSession))).

(** The value that [callEvents] finds at [entry[0].changes[0].value] of
    a [callEventBody]. *)
Definition callEventValue (call contact : value) : value :=
  VObj [(js "calls", VArr [call]); (js "contacts", VArr [contact])].

(** The session once both offers are stored and before the bridge
    starts. *)
Definition rendezvous (socket : Socket) (browserOffer whatsappOffer : jsstring)
    (callId : value) : Session :=
  {| browserPc := None; browserStream := None;
     whatsappPc := None; whatsappStream := None;
     browserOfferSdp := VStr browserOffer;
     whatsappOfferSdp := VStr whatsappOffer;
     browserSocket := Some socket; currentCallId := callId;
     callInProgress := false |}.

(** The event is neither a request, nor an emission, nor a timer. *)
Definition isSilent (e : event) : bool :=
  match e with
  | SendStatus _ | ConsoleError _ => true
  | _ => false
  end.

(** A second [connect] webhook, of another call, while [abc123] is
    bridged. *)
Definition secondConnect : value :=
  callEventBody (connectCall "zzz999" (js "v=0" ++ CRLF)) contactA.

Definition afterSecondConnect : Session :=
  sessionOf (callEvents secondConnect happyEnv bridgedSession).

(** The bridged call ended by the browser, by the provider, and by the
    browser going away. *)
Definition afterTerminateCall : Session :=
  sessionOf (terminateCallHandler socketA (VStr (js "abc123")) successReply
                                  bridgedSession).

Definition afterWebhookTerminate : Session :=
  sessionOf (callEvents (callEventBody (terminateCallEvent "abc123") contactA)
                        happyEnv bridgedSession).

Definition afterDisconnect : Session :=
  sessionOf (disconnect socketA bridgedSession).

(** A run in which the engine refuses the provider offer. *)
Definition brokenEnv : BridgeEnv :=
  {| browserRemoteOk := true;
     whatsappRemoteOk := false;
     browserTracks := [];
     dummyTrack := None;
     whatsappTracks := None;
     browserAnswer := None;
     waAnswer := None;
     preAcceptReply := failureReply |}.

Definition afterBridgeError : Session :=
  sessionOf (startBridge brokenEnv
               (rendezvous socketA browserSdp providerSdp (VStr (js "abc123")))).

(** What a bridging run never puts on the trace when [pre_accept] is
    refused: the timer that sends [accept], an [accept] request, a
    [call-failed] event. *)
Definition abortsQuietly (e : event) : Prop :=
  isAcceptTimer e = false
  /\ isAnswerWith "accept" e = false
  /\ isEmitOf "call-failed" e = false.


(** The bridging run of the example call with [pre_accept] refused. *)
Definition refusedRun : outcome unit * Session * list event :=
  initiateWebRTCBridge refusedEnv
    (rendezvous socketA browserSdp providerSdp (VStr (js "abc123"))).



(** What [browser-offer] stores (lines 59-66): the offer, the socket, and
    the call id when the browser sent one. *)
Definition browserOfferStored (socket : Socket) (sdp : jsstring)
    (callId : value) (s : Session) : Session :=
  let s1 := setBrowserSocket (Some socket) (setBrowserOfferSdp (VStr sdp) s) in
  if truthy callId then setCurrentCallId callId s1 else s1.




(** The event is a request of the permission probe. *)
Definition isProbe (e : event) : Prop := isPostBy ByCheckCallPermission e = true.

(** A probe that the provider answers with error 138006, and the
    accepted permission request that follows. *)
Definition deniedEnv : SmartCallEnv :=
  {| probe := {| probeOffer := Some (js "v=0" ++ CRLF);
                 probeReply :=
                   Rejected (js "Request failed with status code 400")
                            (VObj [(js "error",
                                    VObj [(js "code", VNum 138006);
                                          (js "message",
                                           VStr (js "Call permission required"))])]);
                 probeTerminateReply := successReply |};
     direct := {| directOffer := Some (js "v=0" ++ CRLF);
                  directReply := successReply |};
     requestReply :=
       Resolved (VObj [(js "messages",
                        VArr [VObj [(js "id", VStr (js "wamid.1"))]])]) |}.

(** The [connect] request of the permission probe (lines 1153-1162), when
    the engine made the probe offer. *)
Definition probeConnect (phoneNumber : jsstring) (env : ProbeEnv) : list event :=
  match probeOffer env with
  | Some sdp => [Post ByCheckCallPermission (Connect phoneNumber sdp)]
  | None => []
  end.

(** The event is a [connect] request, whoever posts it. *)
Definition isConnect (e : event) : bool :=
  match e with
  | Post _ (Connect _ _) => true
  | _ => false
  end.

(** A probe that the provider answers as it answers a call it has set
    up, with the id of the call and without a [success] field, and the
    accepted permission request that follows. *)
Definition unknownEnv : SmartCallEnv :=
  {| probe := {| probeOffer := Some (js "v=0" ++ CRLF);
                 probeReply :=
                   Resolved (VObj [(js "messaging_product", VStr (js "whatsapp"));
                                   (js "calls",
                                    VArr [VObj [(js "id", VStr (js "wacid.1"))]])]);
                 probeTerminateReply := successReply |};
     direct := {| directOffer := Some (js "v=0" ++ CRLF);
                  directReply := successReply |};
     requestReply :=
       Resolved (VObj [(js "messages",
                        VArr [VObj [(js "id", VStr (js "wamid.1"))]])]) |}.

(** A provider offer without a fingerprint line, and the bridging run
    that receives it. *)
Definition offerWithoutFingerprint : jsstring :=
  js "v=0" ++ CRLF ++ js "m=audio 3480 RTP/AVP 111" ++ CRLF
  ++ js "a=ice-ufrag:abcd" ++ CRLF.

Definition bridgedWithoutFingerprint : Session :=
  sessionOf (startBridge happyEnv
               (rendezvous socketA browserSdp offerWithoutFingerprint
                           (VStr (js "abc123")))).

(** A provider answer whose bundle group names the media section
    [audio], as it does when the offer called it so. *)
Definition answerBundleAudio : jsstring :=
  js "v=0" ++ CRLF ++ js "a=group:BUNDLE audio" ++ CRLF
  ++ js "m=audio 9 UDP/TLS/RTP/SAVPF 111" ++ CRLF
  ++ js "a=mid:audio" ++ CRLF ++ js "a=setup:active" ++ CRLF.

Definition bundleAudioEnv : BridgeEnv :=
  {| browserRemoteOk := true;
     whatsappRemoteOk := true;
     browserTracks := [ {| trackId := 1; isAudio := true |} ];
     dummyTrack := Some {| trackId := 0; isAudio := true |};
     whatsappTracks := Some [ {| trackId := 2; isAudio := true |} ];
     browserAnswer := Some (js "v=0" ++ CRLF ++ js "a=setup:active" ++ CRLF);
     waAnswer := Some answerBundleAudio;
     preAcceptReply := successReply |}.

(** ** The rest of [server.js] *)

(** Lines 315-328: the verification handshake, GET [/call-events].  The
    second registration of the same route (lines 527-540) has the same
    body.  [verifyBody] is what the response carries: the argument of
    [res.status(200).send], or the status text that [res.sendStatus]
    sends as body. *)
Record VerifyResponse := {
  verifyStatus : Z;
  verifyBody : value
}.

(** [process.env.VERIFY_TOKEN || "my_secret_token"]; [None] is an unset
    variable. *)
Definition VERIFY_TOKEN (envToken : option jsstring) : jsstring :=
  match envToken with
  | Some (c :: t) => c :: t
  | _ => js "my_secret_token"
  end.

Definition getCallEvents (envToken : option jsstring)
    (mode token challenge : value) : VerifyResponse :=
  if truthy mode && truthy token && isStr mode (js "subscribe")
     && isStr token (VERIFY_TOKEN envToken)
  then {| verifyStatus := 200; verifyBody := challenge |}
  else {| verifyStatus := 403; verifyBody := VStr (js "Forbidden") |}.

(** Lines 72-89: [browser-candidate].  The result says what became of
    the candidate; [engineOk] is whether [addIceCandidate] resolves.
    What the engine does with a candidate it was given is not in the
    record of the leg, which keeps descriptions and tracks only. *)
Inductive candidateFate :=
| Discarded
| Added
| Refused.

Definition browserCandidate (socket : Socket) (candidate : value)
    (engineOk : bool) : M candidateFate :=
  c <- member candidate "candidate" ;;
  match c with
  | VStr _ => ret tt
  | _ => raise (TypeError (js "candidate.candidate.substring is not a function"))
  end ;;;
  s <- getSession ;;
  match browserPc s with
  | None => ret Discarded
  | Some _ =>
      if engineOk then ret Added
      else consoleError "Failed to add ICE candidate from browser:" ;;;
           ret Refused
  end.

Record InitiateCallEnv := {
  checkProbe : ProbeEnv;
  placement : DirectCallEnv
}.

(** Lines 254-308: the [try] of the [initiate-call] handler, for a
    [phoneNumber] that is a string.  [onInitiateCall] is the handler on
    whatever argument the browser sends. *)
Definition initiateCall (socket : Socket) (phoneNumber : jsstring)
    (env : InitiateCallEnv) : M unit :=
  tryCatch
    (let formattedNumber := formatNumber phoneNumber in
     modify (setBrowserSocket (Some socket)) ;;;
     returned <-
       tryCatch
         (permissionStatus <-
            checkCallPermission formattedNumber (checkProbe env) ;;
          if negb (hasPermission permissionStatus) then
            emit socket "call-failed"
                 [VStr (js "No approved call permission from the recipient. Please send a permission request first (Step 1) and wait for the user to approve.")] ;;;
            ret true
          else ret false)
         (fun _ =>
            emit socket "call-status"
                 [VStr (js "Permission check failed, attempting call directly...")] ;;;
            ret false) ;;
     if returned then ret tt
     else
       result <- initiateDirectCall formattedNumber (placement env) ;;
       if success result then
         emit socket "call-initiated" [] ;;;
         modify (setCurrentCallId (call_id result))
       else if isNum (errorCodeOf (data result)) 138006 then
         emit socket "call-failed"
              [VStr (js "No approved call permission from recipient. Please send a permission request first (Step 1) and wait for the user to approve.")]
       else
         emit socket "call-failed"
              [orElse (error result) (VStr (js "Failed to initiate call"))])
    (fun e => emit socket "call-failed" [VStr (messageOf e)]).

(** Lines 157 and 253: both handlers take their argument apart in the
    parameter list, [async ({ phoneNumber }) => ...], before the [try] of
    lines 158 and 254 is entered: an argument that is [null] or missing
    throws there.  Inside the [try], [phoneNumber.replace] (lines 163 and
    258) is the first use of the number: only a string has the method,
    and the TypeError of anything else goes to the [catch], which emits
    its message as [call-failed]. *)
Definition destructureError (payload : value) : exn :=
  match payload with
  | VNull =>
      TypeError (js "Cannot destructure property 'phoneNumber' of 'object null' as it is null.")
  | _ =>
      TypeError (js "Cannot destructure property 'phoneNumber' of 'undefined' as it is undefined.")
  end.

Definition replaceError (phoneNumber : value) : jsstring :=
  match phoneNumber with
  | VUndefined => js "Cannot read properties of undefined (reading 'replace')"
  | VNull => js "Cannot read properties of null (reading 'replace')"
  | _ => js "phoneNumber.replace is not a function"
  end.

Definition withPhoneNumber (socket : Socket) (payload : value)
    (body : jsstring -> M unit) : M unit :=
  if nullish payload then raise (destructureError payload)
  else
    match field payload (js "phoneNumber") with
    | VStr phoneNumber => body phoneNumber
    | other => emit socket "call-failed" [VStr (replaceError other)]
    end.

(** [typeof v === "string"]. *)
Definition isString (v : value) : bool :=
  match v with VStr _ => true | _ => false end.

(** [socket.on("smart-call", ...)] and [socket.on("initiate-call", ...)]
    on whatever the browser sends as argument. *)
Definition onSmartCall (socket : Socket) (payload : value)
    (env : SmartCallEnv) : M unit :=
  withPhoneNumber socket payload
                  (fun phoneNumber => smartCall socket phoneNumber env).

Definition onInitiateCall (socket : Socket) (payload : value)
    (env : InitiateCallEnv) : M unit :=
  withPhoneNumber socket payload
                  (fun phoneNumber => initiateCall socket phoneNumber env).

(** ** The browser's [call-failed] handler ([call-failed.js]) *)

(** The branch taken, named as the handler logs it. *)
Inductive errorType :=
| AlreadyOnAnotherCall
| RateLimit
| PermissionIssue
| Other.

(** What the handler decides: the branch, and after how many
    milliseconds the callback that adds the retry button runs. *)
Record CallFailedView := {
  shownAs : errorType;
  retryButtonAfter : option Z
}.

(** [error.includes("lit")] in the browser: strings and arrays have the
    method. *)
Definition errorIncludes (error : value) (lit : string) : outcome bool :=
  match error with
  | VStr s => Returns (includes s (js lit))
  | VArr l => Returns (existsb (fun x => isStr x (js lit)) l)
  | _ => Throws (TypeError (js "error.includes is not a function"))
  end.

Definition either (a : outcome bool) (b : outcome bool) : outcome bool :=
  match a with
  | Returns true => Returns true
  | Returns false => b
  | Throws e => Throws e
  end.

(** Lines 2-57 of [call-failed.js]. *)
Definition callFailed (error : value) : outcome CallFailedView :=
  match either (errorIncludes error "already on another call")
               (errorIncludes error "busy") with
  | Throws e => Throws e
  | Returns true =>
      Returns {| shownAs := AlreadyOnAnotherCall;
                 retryButtonAfter := Some 30000%Z |}
  | Returns false =>
      match either (errorIncludes error "rate limit")
                   (errorIncludes error "Limit reached") with
      | Throws e => Throws e
      | Returns true =>
          Returns {| shownAs := RateLimit; retryButtonAfter := None |}
      | Returns false =>
          match errorIncludes error "permission" with
          | Throws e => Throws e
          | Returns true =>
              Returns {| shownAs := PermissionIssue; retryButtonAfter := None |}
          | Returns false =>
              Returns {| shownAs := Other; retryButtonAfter := None |}
          end
      end
  end.

(** ** The server as a machine *)

(** One run of a handler or of a timer callback, with what the engine
    and the provider answer during it, taken from its first line to its
    last: two runs that overlap at an [await] are not among the
    sequences of [run].  The callbacks of the automatic call (lines
    476-506) are not among the inputs. *)
Inductive input :=
| OnBrowserOffer (socket : Socket) (sdp callId : value) (env : BridgeEnv)
| OnBrowserCandidate (socket : Socket) (candidate : value) (engineOk : bool)
| OnRejectCall (socket : Socket) (callId : value)
| OnAcceptCall (socket : Socket) (callId : value) (env : BridgeEnv)
| OnTerminateCall (socket : Socket) (callId : value) (reply : http)
| OnDisconnect (socket : Socket)
| OnSmartCall (socket : Socket) (payload : value) (env : SmartCallEnv)
| OnInitiateCall (socket : Socket) (payload : value) (env : InitiateCallEnv)
| OnCallEvents (body : value) (env : BridgeEnv)
| OnAcceptTimer (finalSdp : jsstring) (reply : http)
| OnClearOffersTimer.

Definition handle (i : input) : M unit :=
  match i with
  | OnBrowserOffer socket sdp callId env => browserOffer socket sdp callId env
  | OnBrowserCandidate socket candidate engineOk =>
      _ <- browserCandidate socket candidate engineOk ;; ret tt
  | OnRejectCall socket callId => rejectCallHandler socket callId
  | OnAcceptCall socket callId env => acceptCall socket callId env
  | OnTerminateCall socket callId reply =>
      terminateCallHandler socket callId reply
  | OnDisconnect socket => disconnect socket
  | OnSmartCall socket payload env => onSmartCall socket payload env
  | OnInitiateCall socket payload env => onInitiateCall socket payload env
  | OnCallEvents body env => callEvents body env
  | OnAcceptTimer finalSdp reply => acceptTimer finalSdp reply
  | OnClearOffersTimer => clearOffersTimer
  end.

(** The session after a sequence of runs; a handler that throws leaves
    the session as it was when it threw. *)
Definition run (inputs : list input) (s : Session) : Session :=
  fold_left (fun s i => sessionOf (handle i s)) inputs s.

(** ** Vocabulary of the further properties *)

(** Every run of [m] takes a session to one related to it by [R]. *)
Definition keeps (R : Session -> Session -> Prop) {A} (m : M A) : Prop :=
  forall s, R s (sessionOf (m s)).

(** No run of [m] ends in an exception. *)
Definition neverThrows {A} (m : M A) : Prop :=
  forall s, exists a, resultOf (m s) = Returns a.

(** [close] was not called on the leg, if there is one. *)
Definition notClosed (pc : option RTCPeerConnection) : bool :=
  match pc with
  | Some c => negb (closed c)
  | None => true
  end.

(** The leg exists and has both descriptions. *)
Definition negotiated (pc : option RTCPeerConnection) : bool :=
  match pc with
  | Some c =>
      match remoteDescription c, localDescription c with
      | Some _, Some _ => true
      | _, _ => false
      end
  | None => false
  end.

Definition isSome {A} (o : option A) : bool :=
  match o with Some _ => true | None => false end.

(** No leg is closed, and there is no provider leg without a browser
    leg. *)
Definition legsSound (s : Session) : Prop :=
  notClosed (browserPc s) = true
  /\ notClosed (whatsappPc s) = true
  /\ (isSome (whatsappPc s) = true -> isSome (browserPc s) = true).

(** What the signalling handlers store: the two offers, the socket and
    the call id. *)
Definition signalling (s : Session) : value * value * option Socket * value :=
  (browserOfferSdp s, whatsappOfferSdp s, browserSocket s, currentCallId s).

(** What the bridge owns: the legs and their streams. *)
Definition media (s : Session) :=
  (browserPc s, browserStream s, whatsappPc s, whatsappStream s).

(** The event schedules the automatic call. *)
Definition isAutoCallTimer (e : event) : bool :=
  match e with
  | SetTimeout (AutoCallTask _ _) _ => true
  | _ => false
  end.

(** The event schedules a callback of the bridge: the one that sends
    [accept] or the one that forgets the offers. *)
Definition isBridgeTimer (e : event) : bool :=
  match e with
  | SetTimeout (AcceptTask _) _ | SetTimeout ClearOffersTask _ => true
  | _ => false
  end.

Definition isPost (e : event) : bool :=
  match e with
  | Post _ _ => true
  | _ => false
  end.

Definition isConnectTo (to : jsstring) (e : event) : bool :=
  match e with
  | Post _ (Connect n _) => eqb n to
  | _ => false
  end.

Definition isTerminateRequest (e : event) : bool :=
  match e with
  | Post _ (Terminate _) => true
  | _ => false
  end.

(** A [/call-events] body with one message and one contact. *)
Definition messageBody (message contact : value) : value :=
  VObj [(js "entry",
         VArr [VObj [(js "changes",
                      VArr [VObj [(js "value",
                                   VObj [(js "messages", VArr [message]);
                                         (js "contacts", VArr [contact])])]])]])].

Definition messageValue (message contact : value) : value :=
  VObj [(js "messages", VArr [message]); (js "contacts", VArr [contact])].

(** The message with which a user answers the call permission
    request. *)
Definition permissionReply (from response : jsstring) : value :=
  VObj [(js "from", VStr from); (js "type", VStr (js "interactive"));
        (js "interactive",
         VObj [(js "type", VStr (js "call_permission_reply"));
               (js "call_permission_reply",
                VObj [(js "response", VStr response)])])].

(** [entry[0].changes[0].value] of a webhook body, its first call, and
    whether that call has an id and an event name (line 349). *)
Definition webhookValue (body : value) : value :=
  opt (optFirst (opt (optFirst (opt body (js "entry"))) (js "changes")))
      (js "value").

Definition callOf (body : value) : value :=
  first (field (webhookValue body) (js "calls")).

Definition carriesCallEvent (body : value) : bool :=
  present (webhookValue body) "calls"
  && (truthy (callOf body)
      && (truthy (field (callOf body) (js "id"))
          && truthy (field (callOf body) (js "event")))).


(** A truthy value that is neither a string nor an array. *)
Definition hasNoIncludes (v : value) : Prop :=
  match v with
  | VBool true | VObj _ => True
  | VNum n => n <> 0%Z
  | _ => False
  end.

(** A session that waits for the browser offer, with a number stored as
    provider offer. *)
Definition numberAsOffer : Session :=
  setWhatsappOfferSdp (VNum 7)
    (rendezvous socketA browserSdp providerSdp (VStr (js "abc123"))).


(** The call itself is untouched: legs, streams, offers and the
    in-progress flag are the same in both sessions. *)
Definition sameCall (s s' : Session) : Prop :=
  media s' = media s
  /\ browserOfferSdp s' = browserOfferSdp s
  /\ whatsappOfferSdp s' = whatsappOfferSdp s
  /\ callInProgress s' = callInProgress s.

(** The probe is granted and the call that follows is accepted. *)
Definition grantedEnv : SmartCallEnv :=
  {| probe := {| probeOffer := Some (js "v=0" ++ CRLF);
                 probeReply :=
                   Resolved (VObj [(js "success", VBool true);
                                   (js "call_id", VStr (js "probe-1"))]);
                 probeTerminateReply := successReply |};
     direct := {| directOffer := Some (js "v=0" ++ CRLF ++ js "a=ice-ufrag:x" ++ CRLF);
                  directReply :=
                    Resolved (VObj [(js "success", VBool true);
                                    (js "call_id", VStr (js "call-7"))]) |};
     requestReply := successReply |}.

(** The probe is granted, and the call that follows is rejected with
    error 138006. *)
Definition revokedEnv : SmartCallEnv :=
  {| probe := probe grantedEnv;
     direct := {| directOffer := Some (js "v=0" ++ CRLF);
                  directReply :=
                    Rejected (js "Request failed with status code 400")
                             (VObj [(js "error",
                                     VObj [(js "code", VNum 138006);
                                           (js "message",
                                            VStr (js "Call permission required"))])]) |};
     requestReply := successReply |}.

(** The message tells that the recipient is on another call, as
    [initiateDirectCall] reads it. *)
Definition saysBusy (text : jsstring) : bool :=
  includes text (js "already ongoing")
  || includes text (js "already in progress")
  || includes text (js "busy").

(** The event is neither the [call-status] emission of a failed
    permission check nor a permission request. *)
Definition noFailOpen (e : event) : Prop :=
  isEmitOf "call-status" e = false
  /\ isPostBy BySendCallPermissionRequest e = false.

(** The probe rejected with 138006, for [initiate-call]. *)
Definition deniedCallEnv : InitiateCallEnv :=
  {| checkProbe := probe deniedEnv; placement := direct deniedEnv |}.

(** The probe is granted and the recipient turns out to be on another
    call. *)
Definition busyCallEnv : InitiateCallEnv :=
  {| checkProbe := probe grantedEnv;
     placement :=
       {| directOffer := Some (js "v=0" ++ CRLF);
          directReply :=
            Rejected (js "Request failed with status code 400")
                     (VObj [(js "error",
                             VObj [(js "code", VNum 138000);
                                   (js "message",
                                    VStr (js "A call is already ongoing with this user"))])]) |} |}.

(** A leg after its negotiation: the offer it was given, the answer it
    made, the tracks it sends, and [close] not called. *)
Definition negotiatedLeg (remote : value) (local : jsstring)
    (tracks : list Track) : option RTCPeerConnection :=
  Some {| remoteDescription := Some remote; localDescription := Some local;
          senders := tracks; closed := false |}.

(** A browser socket, once stored, is still stored. *)
Definition socketKept (s s' : Session) : Prop :=
  isSome (browserSocket s) = true -> isSome (browserSocket s') = true.

(** Legs and streams are the same in both sessions. *)
Definition sameMedia (s s' : Session) : Prop := media s' = media s.

(** If a call was in progress, it still is, with the same legs and
    streams. *)
Definition callUndisturbed (s s' : Session) : Prop :=
  callInProgress s = true ->
  media s' = media s /\ callInProgress s' = true.

(** Offers, socket and call id are the same in both sessions. *)
Definition sameSignalling (s s' : Session) : Prop :=
  signalling s' = signalling s.

(** The second session is the first. *)
Definition unchanged (s s' : Session) : Prop := s' = s.

(** The stored call id is the same in both sessions. *)
Definition sameCallId (s s' : Session) : Prop :=
  currentCallId s' = currentCallId s.

Definition notAutoCall (e : event) : Prop := isAutoCallTimer e = false.

(** The [calls] member of the webhook value is not an object: it is an
    array, as the provider sends it, or a string, a number, a boolean,
    [null] or missing.  Its [length] is then a number or undefined, and
    [present] is the test of line 342. *)
Definition callsIsNoObject (body : value) : Prop :=
  match field (webhookValue body) (js "calls") with
  | VObj _ => False
  | _ => True
  end.

(** The provider rejects the call with a number as error message. *)
Definition numberMessageEnv : DirectCallEnv :=
  {| directOffer := Some (js "v=0" ++ CRLF);
     directReply :=
       Rejected (js "Request failed with status code 500")
                (VObj [(js "error",
                        VObj [(js "code", VNum 1);
                              (js "message", VNum 500)])]) |}.

(** * Properties *)

(** ** What a statement can put on the trace *)

Section Emits.

Variable P : event -> Prop.

Lemma emits_ret : forall A (a : A), emits P (ret a).
Proof. intros A a s. constructor. Qed.

Lemma emits_raise : forall A e, emits P (raise e : M A).
Proof. intros A e s. constructor. Qed.

Lemma emits_modify : forall f, emits P (modify f).
Proof. intros f s. constructor. Qed.

Lemma emits_getSession : emits P getSession.
Proof. intros s. constructor. Qed.

Lemma emits_tell : forall e, P e -> emits P (tell e).
Proof. intros e He s. repeat constructor. exact He. Qed.

Lemma emits_bind : forall A B (m : M A) (k : A -> M B),
  emits P m -> (forall a, emits P (k a)) -> emits P (bind m k).
Proof.
  intros A B m k Hm Hk s. unfold bind. specialize (Hm s).
  destruct (m s) as [[[a | e] s1] t1]; cbn in *.
  - specialize (Hk a s1). destruct (k a s1) as [[r s2] t2]; cbn in *.
    apply Forall_app. split; assumption.
  - assumption.
Qed.

Lemma emits_tryCatch : forall A (m : M A) h,
  emits P m -> (forall e, emits P (h e)) -> emits P (tryCatch m h).
Proof.
  intros A m h Hm Hh s. unfold tryCatch. specialize (Hm s).
  destruct (m s) as [[[a | e] s1] t1]; cbn in *.
  - assumption.
  - specialize (Hh e s1). destruct (h e s1) as [[r s2] t2]; cbn in *.
    apply Forall_app. split; assumption.
Qed.

End Emits.

Ltac unfold_helpers :=
  unfold when, emit, ioEmit, consoleError, setTimeout, emitToBrowser, engine,
    member, logOfferPrefix, includesMethod, modifiedWhatsappSdpOf.

Ltac unfold_calls :=
  unfold axiosPost, answerCallToWhatsApp, terminateCall.

Ltac emits_step :=
  match goal with
  | |- emits _ (bind _ _) => apply emits_bind; [ | intro ]
  | |- emits _ (tryCatch _ _) => apply emits_tryCatch; [ | intro ]
  | |- emits _ (ret _) => apply emits_ret
  | |- emits _ (raise _) => apply emits_raise
  | |- emits _ (modify _) => apply emits_modify
  | |- emits _ getSession => apply emits_getSession
  | |- emits _ (tell _) =>
      apply emits_tell;
      first [ exact I | reflexivity | repeat split; reflexivity ]
  | |- emits _ (if ?b then _ else _) => destruct b
  | |- emits _ (match ?x with _ => _ end) => destruct x
  | |- emits _ (let _ := _ in _) => cbv zeta
  | |- emits _ _ => progress unfold_helpers
  | |- emits _ _ => progress unfold_calls
  end.

Ltac emits_run := repeat emits_step.

(** Run a statement, splitting on every test the run meets. *)
Ltac split_run :=
  repeat (cbn;
          match goal with
          | |- context [if ?b then _ else _] => destruct b
          | |- context [match ?x with Resolved _ => _ | Rejected _ _ => _ end] =>
              destruct x
          end);
  cbn.

(** ** Strings *)

Lemma startsWith_spec : forall p s,
  startsWith p s = true <-> exists b, s = p ++ b.
Proof.
  induction p as [ | x p IH]; intros s; cbn.
  - split; [ exists s; reflexivity | reflexivity ].
  - destruct s as [ | y s].
    + split; [ discriminate | intros [b Hb]; discriminate Hb ].
    + rewrite andb_true_iff, N.eqb_eq, IH. split.
      * intros [-> [b ->]]. exists b. reflexivity.
      * intros [b Hb]. injection Hb as -> ->. split; [ reflexivity | ].
        exists b. reflexivity.
Qed.

Lemma includes_spec : forall s p,
  includes s p = true <-> exists a b, s = a ++ p ++ b.
Proof.
  induction s as [ | c s IH]; intros p.
  - cbn [includes]. rewrite orb_false_r, startsWith_spec. split.
    + intros [b Hb]. exists [], b. exact Hb.
    + intros [a [b Hb]]. destruct a; [ exists b; exact Hb | discriminate Hb ].
  - cbn [includes]. rewrite orb_true_iff, startsWith_spec, IH. split.
    + intros [[b Hb] | [a [b Hb]]].
      * exists [], b. exact Hb.
      * exists (c :: a), b. rewrite Hb. reflexivity.
    + intros [a [b Hb]]. destruct a as [ | x a].
      * left. exists b. exact Hb.
      * right. injection Hb as -> ->. exists a, b. reflexivity.
Qed.

Lemma includes_trans : forall s p q,
  includes s p = true -> includes p q = true -> includes s q = true.
Proof.
  intros s p q Hs Hp. apply includes_spec in Hs. apply includes_spec in Hp.
  destruct Hs as [a [b ->]]. destruct Hp as [a' [b' ->]].
  apply includes_spec. exists (a ++ a'), (b' ++ b).
  rewrite <- !app_assoc. reflexivity.
Qed.

Lemma includes_false_cons : forall c s p,
  includes (c :: s) p = false ->
  startsWith p (c :: s) = false /\ includes s p = false.
Proof. intros c s p H. cbn [includes] in H. apply orb_false_iff in H. exact H. Qed.

(** [replace] changes nothing when the pattern does not occur, and
    otherwise the result holds the replacement. *)
Lemma replace_absent : forall s pat rep,
  includes s pat = false -> replace s pat rep = s.
Proof.
  induction s as [ | c s IH]; intros pat rep H.
  - cbn in *. rewrite orb_false_r in H. rewrite H. reflexivity.
  - apply includes_false_cons in H. destruct H as [H1 H2].
    cbn [replace]. rewrite H1, (IH pat rep H2). reflexivity.
Qed.

Lemma replace_present : forall s pat rep,
  includes s pat = true -> includes (replace s pat rep) rep = true.
Proof.
  induction s as [ | c s IH]; intros pat rep H.
  - cbn in H. rewrite orb_false_r in H. cbn [replace]. rewrite H.
    apply includes_spec. exists [], (skipn (List.length pat) []). reflexivity.
  - cbn [replace]. destruct (startsWith pat (c :: s)) eqn:Hst.
    + apply includes_spec.
      exists [], (skipn (List.length pat) (c :: s)). reflexivity.
    + cbn [includes] in H. rewrite Hst in H. cbn in H.
      cbn [includes]. rewrite (IH pat rep H). apply orb_true_r.
Qed.

(** The same for the regular-expression replace: nothing changes when no
    line holds the literal, and otherwise the result holds the text that
    is written behind the match. *)
Lemma appendAfterLines_absent : forall fuel lit ins s,
  includes s lit = false -> appendAfterLines fuel lit ins s = s.
Proof.
  induction fuel as [ | fuel IH]; intros lit ins s H; [ reflexivity | ].
  destruct s as [ | c s]; [ reflexivity | ].
  apply includes_false_cons in H. destruct H as [H1 H2].
  cbn [appendAfterLines]. rewrite H1, (IH lit ins s H2). reflexivity.
Qed.

Lemma appendAfterLines_present : forall fuel lit ins s,
  lit <> [] ->
  (List.length s <= fuel)%nat ->
  includes s lit = true ->
  includes (appendAfterLines fuel lit ins s) ins = true.
Proof.
  induction fuel as [ | fuel IH]; intros lit ins s Hlit Hlen H.
  - destruct s; [ | cbn in Hlen; lia ].
    cbn in H. rewrite orb_false_r in H.
    destruct lit; [ contradiction | discriminate H ].
  - destruct s as [ | c s].
    + cbn in H. rewrite orb_false_r in H.
      destruct lit; [ contradiction | discriminate H ].
    + cbn [appendAfterLines]. destruct (startsWith lit (c :: s)) eqn:Hst.
      * destruct (dotStar (skipn (List.length lit) (c :: s))) as [line rest].
        apply includes_spec.
        exists (lit ++ line), (appendAfterLines fuel lit ins rest).
        rewrite <- !app_assoc. reflexivity.
      * cbn [includes] in H. rewrite Hst in H. cbn in H.
        cbn [includes].
        rewrite (IH lit ins s Hlit); [ apply orb_true_r | | exact H ].
        cbn in Hlen. lia.
Qed.

(** ** The two SDP patches *)

Example modified_ex :
  modifiedWhatsappSdp (js "a=fingerprint:sha-256 AB" ++ CRLF ++ js "a=fingerprint:x")
  = js "a=fingerprint:sha-256 AB" ++ CRLF ++ js "a=setup:actpass" ++ CRLF
    ++ js "a=fingerprint:x" ++ CRLF ++ js "a=setup:actpass".
Proof. vm_compute. reflexivity. Qed.

Example final_ex :
  finalWaSdp (js "a=group:BUNDLE 0" ++ CRLF ++ js "a=setup:actpass")
  = js "a=group:BUNDLE 0" ++ CRLF ++ js "a=ice-options:trickle" ++ CRLF
    ++ js "a=setup:active".
Proof. vm_compute. reflexivity. Qed.

(** The provider offer comes out with [a=setup:actpass] exactly when it
    had the attribute or has a fingerprint line to write it behind. *)
Lemma modifiedWhatsappSdp_has_setup : forall sdp,
  includes (modifiedWhatsappSdp sdp) (js "a=setup:actpass")
  = includes sdp (js "a=setup:actpass") || includes sdp (js "a=fingerprint:").
Proof.
  intro sdp. unfold modifiedWhatsappSdp.
  destruct (includes sdp (js "a=setup:actpass")) eqn:Hsetup; cbn [negb orb].
  - exact Hsetup.
  - destruct (includes sdp (js "a=fingerprint:")) eqn:Hfp.
    + apply includes_trans with (p := CRLF ++ js "a=setup:actpass").
      * unfold replaceLines. apply appendAfterLines_present.
        -- discriminate.
        -- apply le_n.
        -- exact Hfp.
      * reflexivity.
    + unfold replaceLines. rewrite appendAfterLines_absent by exact Hfp.
      exact Hsetup.
Qed.

Lemma modifiedWhatsappSdp_unchanged : forall sdp,
  includes sdp (js "a=setup:actpass") = true
  \/ includes sdp (js "a=fingerprint:") = false ->
  modifiedWhatsappSdp sdp = sdp.
Proof.
  intros sdp [H | H]; unfold modifiedWhatsappSdp.
  - rewrite H. reflexivity.
  - destruct (negb (includes sdp (js "a=setup:actpass"))); [ | reflexivity ].
    unfold replaceLines. apply appendAfterLines_absent. exact H.
Qed.

(** C5.  A provider offer that has no fingerprint line and no
    [a=setup:actpass] goes through lines 675-686 unchanged, and the
    bridging run sets it as the remote description of the provider leg
    without the attribute. *)
Theorem offer_without_fingerprint_gets_no_setup :
  includes offerWithoutFingerprint (js "a=setup:actpass") = false
  /\ modifiedWhatsappSdp offerWithoutFingerprint = offerWithoutFingerprint
  /\ includes (modifiedWhatsappSdp offerWithoutFingerprint)
              (js "a=setup:actpass") = false
  /\ option_map remoteDescription (whatsappPc bridgedWithoutFingerprint)
     = Some (Some (VStr offerWithoutFingerprint)).
Proof. vm_compute. repeat split. Qed.

(** The provider answer comes out with [a=ice-options:trickle] exactly
    when, after the first patch, it has the attribute or the text
    [a=group:BUNDLE 0] to write it behind. *)
Lemma finalWaSdp_has_trickle : forall sdp,
  includes (finalWaSdp sdp) (js "a=ice-options:trickle")
  = includes (replace sdp (js "a=setup:actpass") (js "a=setup:active"))
             (js "a=ice-options:trickle")
    || includes (replace sdp (js "a=setup:actpass") (js "a=setup:active"))
                (js "a=group:BUNDLE 0").
Proof.
  intro sdp. unfold finalWaSdp. cbv zeta.
  set (s := replace sdp (js "a=setup:actpass") (js "a=setup:active")).
  destruct (includes s (js "a=ice-options:trickle")) eqn:Htrickle;
    cbn [negb orb].
  - exact Htrickle.
  - destruct (includes s (js "a=group:BUNDLE 0")) eqn:Hbundle.
    + apply includes_trans
        with (p := js "a=group:BUNDLE 0" ++ CRLF ++ js "a=ice-options:trickle").
      * apply replace_present. exact Hbundle.
      * reflexivity.
    + rewrite replace_absent by exact Hbundle. exact Htrickle.
Qed.

(** C6.  A provider answer whose bundle group is not [a=group:BUNDLE 0]
    and that has no [a=ice-options:trickle] goes through lines 750-755
    unchanged, and the bridging run sends it with [pre_accept] and hands
    it to the [accept] timer without the attribute. *)
Theorem answer_without_bundle_0_gets_no_trickle :
  finalWaSdp answerBundleAudio = answerBundleAudio
  /\ includes (finalWaSdp answerBundleAudio) (js "a=ice-options:trickle")
     = false
  /\ traceOf (startBridge bundleAudioEnv
                (rendezvous socketA browserSdp providerSdp
                            (VStr (js "abc123"))))
     = [SocketEmit socketA (js "browser-answer")
                   [VStr (js "v=0" ++ CRLF ++ js "a=setup:active" ++ CRLF)];
        Post ByAnswerCallToWhatsApp
             (Answer (VStr (js "abc123")) (js "pre_accept") answerBundleAudio);
        SetTimeout (AcceptTask answerBundleAudio) 1500;
        SetTimeout ClearOffersTask 5000].
Proof. vm_compute. repeat split. Qed.

(** ** The webhook always answers 200 *)

Lemma statusCodes_app : forall t1 t2,
  statusCodes (t1 ++ t2) = statusCodes t1 ++ statusCodes t2.
Proof. intros. unfold statusCodes. apply flat_map_app. Qed.

Lemma statusCodes_quiet : forall t, Forall notStatus t -> statusCodes t = [].
Proof.
  induction 1 as [ | e t He _ IH]; [ reflexivity | ].
  destruct e; cbn in *; try assumption. contradiction.
Qed.

Lemma initiateWebRTCBridge_quiet : forall env,
  emits notStatus (initiateWebRTCBridge env).
Proof.
  intro env. unfold initiateWebRTCBridge, startBridge, bridgeBody, negotiate,
    callControl.
  unfold_calls. unfold_helpers. emits_run.
Qed.

Lemma callEvent_quiet : forall call env, emits notStatus (callEvent call env).
Proof.
  intros call env. unfold callEvent. unfold_helpers.
  pose proof (initiateWebRTCBridge_quiet env).
  emits_run; assumption.
Qed.

Lemma permissionsBranch_quiet : forall v, emits notStatus (permissionsBranch v).
Proof. intro v. unfold permissionsBranch. unfold_helpers. emits_run. Qed.

Lemma statusesBranch_quiet : forall v, emits notStatus (statusesBranch v).
Proof. intro v. unfold statusesBranch. unfold_helpers. emits_run. Qed.

Lemma messagesBranch_quiet : forall v, emits notStatus (messagesBranch v).
Proof. intro v. unfold messagesBranch. unfold_helpers. emits_run. Qed.

(** A quiet statement followed by [ret false] has not answered yet. *)
Lemma quiet_then_false : forall (m : M unit) s,
  emits notStatus m ->
  match (m ;;; ret false) s with
  | (Returns true, _, _) => False
  | (_, _, t) => statusCodes t = []
  end.
Proof.
  intros m s Hm. unfold bind. specialize (Hm s).
  destruct (m s) as [[[a | e] s1] t1]; cbn in *.
  - rewrite app_nil_r. apply statusCodes_quiet. assumption.
  - apply statusCodes_quiet. assumption.
Qed.

Lemma dispatch_answers_once : forall v env s,
  match dispatch v env s with
  | (Returns true, _, t) => statusCodes t = [200%Z]
  | (_, _, t) => statusCodes t = []
  end.
Proof.
  intros v env s. unfold dispatch.
  destruct (present v "calls").
  - unfold callBranch. cbv zeta.
    match goal with |- context [if ?b then _ else _] => destruct b end.
    + reflexivity.
    + pose proof (quiet_then_false _ s (callEvent_quiet (first (field v (js "calls"))) env)) as H.
      destruct ((callEvent (first (field v (js "calls"))) env ;;; ret false) s)
        as [[[[ | ] | e] s1] t1]; tauto.
  - destruct (present v "call_permissions").
    { pose proof (quiet_then_false _ s (permissionsBranch_quiet v)) as H.
      destruct ((permissionsBranch v ;;; ret false) s)
        as [[[[ | ] | e] s1] t1]; tauto. }
    destruct (present v "statuses").
    { pose proof (quiet_then_false _ s (statusesBranch_quiet v)) as H.
      destruct ((statusesBranch v ;;; ret false) s)
        as [[[[ | ] | e] s1] t1]; tauto. }
    destruct (present v "messages").
    { pose proof (quiet_then_false _ s (messagesBranch_quiet v)) as H.
      destruct ((messagesBranch v ;;; ret false) s)
        as [[[[ | ] | e] s1] t1]; tauto. }
    reflexivity.
Qed.

(** C10.  Whatever the request body is, and whatever the engine and the
    provider answer to a bridging run started by it, the handler of
    POST [/call-events] ends without an exception and has sent exactly
    one response, with status 200. *)
Theorem callEvents_always_200 : forall body env s,
  resultOf (callEvents body env s) = Returns tt /\
  statusCodes (traceOf (callEvents body env s)) = [200%Z].
Proof.
  intros body env s. unfold callEvents. cbv zeta.
  set (v := opt (optFirst (opt (optFirst (opt body (js "entry")))
                               (js "changes"))) (js "value")).
  pose proof (dispatch_answers_once v env s) as H.
  unfold tryCatch, bind.
  destruct (dispatch v env s) as [[[[ | ] | e] s1] t1]; cbn.
  - rewrite app_nil_r. split; [ reflexivity | assumption ].
  - rewrite statusCodes_app, H. split; reflexivity.
  - rewrite statusCodes_app, H. split; reflexivity.
Qed.

(** ** The bridge *)

Example bridgedSession_in_progress :
  callInProgress bridgedSession = true
  /\ isOpen (browserPc bridgedSession) = true
  /\ isOpen (whatsappPc bridgedSession) = true
  /\ currentCallId bridgedSession = VStr (js "abc123").
Proof. vm_compute. repeat split. Qed.

Lemma answerCallToWhatsApp_run : forall callId sdp action reply s,
  answerCallToWhatsApp callId sdp action reply s
  = (Returns (succeeded reply), s,
     [Post ByAnswerCallToWhatsApp (Answer callId (js action) sdp)]).
Proof. intros. destruct reply; reflexivity. Qed.

Lemma initiateWebRTCBridge_not_ready : forall env s,
  callInProgress s = false ->
  truthy (browserOfferSdp s) = false
  \/ truthy (whatsappOfferSdp s) = false
  \/ browserSocket s = None ->
  initiateWebRTCBridge env s = (Returns tt, s, []).
Proof.
  intros env s Hflag H.
  unfold initiateWebRTCBridge, bind, getSession. rewrite Hflag.
  destruct H as [H | [H | H]]; rewrite H; cbn.
  - reflexivity.
  - rewrite orb_true_r. reflexivity.
  - rewrite orb_true_r. reflexivity.
Qed.

Lemma initiateWebRTCBridge_ready : forall env s socket,
  callInProgress s = false ->
  truthy (browserOfferSdp s) = true ->
  truthy (whatsappOfferSdp s) = true ->
  browserSocket s = Some socket ->
  initiateWebRTCBridge env s = startBridge env s.
Proof.
  intros env s socket Hflag Hb Hw Hs.
  unfold initiateWebRTCBridge, bind, getSession. rewrite Hflag, Hb, Hw, Hs.
  cbn [negb orb]. cbv beta iota.
  destruct (startBridge env s) as [[r s1] t1]. reflexivity.
Qed.

(** C4.  When the in-progress flag is false and the browser offer or the
    provider offer is empty or the browser socket is not set,
    [initiateWebRTCBridge] returns at once: the session is what it was, so
    the flag stays false and no leg is created, and nothing is emitted or
    posted.  Conversely a run that leaves the flag true started with both
    offers non-empty and the socket set. *)
Theorem bridge_start_needs_offers_and_channel : forall env s,
  callInProgress s = false ->
  (truthy (browserOfferSdp s) = false
   \/ truthy (whatsappOfferSdp s) = false
   \/ browserSocket s = None ->
   initiateWebRTCBridge env s = (Returns tt, s, [])
   /\ callInProgress (sessionOf (initiateWebRTCBridge env s)) = false
   /\ legs (sessionOf (initiateWebRTCBridge env s)) = legs s)
  /\ (callInProgress (sessionOf (initiateWebRTCBridge env s)) = true ->
      truthy (browserOfferSdp s) = true
      /\ truthy (whatsappOfferSdp s) = true
      /\ browserSocket s <> None).
Proof.
  intros env s Hflag.
  pose proof (initiateWebRTCBridge_not_ready env s Hflag) as Hstop.
  split.
  - intros H. rewrite (Hstop H). cbn. auto.
  - intros Hrun.
    destruct (truthy (browserOfferSdp s)) eqn:Hb.
    2: { rewrite Hstop in Hrun by auto. cbn in Hrun. congruence. }
    destruct (truthy (whatsappOfferSdp s)) eqn:Hw.
    2: { rewrite Hstop in Hrun by auto. cbn in Hrun. congruence. }
    destruct (browserSocket s) eqn:Hs.
    2: { rewrite Hstop in Hrun by auto. cbn in Hrun. congruence. }
    repeat split; congruence.
Qed.

Lemma bridge_start_needs_offers_and_channel_witness :
  callInProgress initialSession = false
  /\ initiateWebRTCBridge happyEnv initialSession
     = (Returns tt, initialSession, []).
Proof.
  split; [ reflexivity | ].
  apply (bridge_start_needs_offers_and_channel happyEnv initialSession).
  - reflexivity.
  - left. reflexivity.
Defined.

(** What [startBridge] does, in terms of what [negotiate] did. *)
Lemma startBridge_run : forall env s,
  startBridge env s =
  match negotiate env (setCallInProgress true s) with
  | (Throws _, s1, t1) =>
      (Returns tt, setCallInProgress false s1,
       t1 ++ [ConsoleError (js "Error in WebRTC bridge:")])
  | (Returns finalSdp, s1, t1) =>
      (Returns tt,
       (if succeeded (preAcceptReply env) then s1
        else setCallInProgress false s1),
       t1 ++ Post ByAnswerCallToWhatsApp
                  (Answer (currentCallId s1) (js "pre_accept") finalSdp)
          :: (if succeeded (preAcceptReply env)
              then SetTimeout (AcceptTask finalSdp) 1500
              else ConsoleError (js "Pre-accept failed. Aborting accept step."))
          :: [SetTimeout ClearOffersTask 5000])
  end.
Proof.
  intros env s.
  unfold startBridge, bridgeBody, callControl, tryCatch, bind, modify,
    getSession. cbv beta iota.
  destruct (negotiate env (setCallInProgress true s)) as [[[f | e] s1] t1];
    cbv beta iota.
  - rewrite answerCallToWhatsApp_run.
    destruct (succeeded (preAcceptReply env)); reflexivity.
  - reflexivity.
Qed.

(** A webhook that carries a call event with an id and an event name
    runs [callEvent] and answers 200, also when [callEvent] throws. *)
Lemma callEvents_callEventBody : forall call contact env s,
  truthy (field call (js "id")) = true ->
  truthy (field call (js "event")) = true ->
  callEvents (callEventBody call contact) env s =
  match callEvent call env s with
  | (Returns _, s1, t1) => (Returns tt, s1, t1 ++ [SendStatus 200])
  | (Throws _, s1, t1) =>
      (Returns tt, s1,
       t1 ++ [ConsoleError (js "Error processing /call-events webhook:");
              SendStatus 200])
  end.
Proof.
  intros call contact env s Hid Hev.
  assert (Hcall : truthy call = true).
  { destruct call; try reflexivity; discriminate Hid. }
  unfold callEvents. cbv zeta.
  change (opt (optFirst (opt (optFirst (opt (callEventBody call contact)
                                            (js "entry")))
                             (js "changes"))) (js "value"))
    with (callEventValue call contact).
  unfold dispatch.
  change (present (callEventValue call contact) "calls") with true.
  cbv iota. unfold callBranch. cbv zeta.
  change (first (field (callEventValue call contact) (js "calls"))) with call.
  rewrite Hcall, Hid, Hev. cbn [negb orb].
  unfold tryCatch, bind.
  destruct (callEvent call env s) as [[[[] | e] s1] t1];
    cbv beta iota; unfold ret, tell, consoleError; cbv beta iota;
    rewrite ?app_nil_r; reflexivity.
Qed.

Lemma eqb_refl : forall a, eqb a a = true.
Proof.
  induction a as [ | c l IH]; cbn; [ | rewrite N.eqb_refl ]; auto.
Qed.

Lemma isStr_eq : forall v lit, v = VStr lit -> isStr v lit = true.
Proof. intros v lit ->. apply eqb_refl. Qed.

(** ** A second [connect] while a call is in progress *)

Lemma callEvent_connect_in_progress : forall call env s,
  callInProgress s = true ->
  field call (js "event") = VStr (js "connect") ->
  sessionOf (callEvent call env s)
  = setWhatsappOfferSdp (opt (opt call (js "session")) (js "sdp"))
                        (setCurrentCallId (field call (js "id")) s)
  /\ traceOf (callEvent call env s) = [].
Proof.
  intros call env s Hflag Hev.
  unfold callEvent. cbv zeta. rewrite (isStr_eq _ _ Hev).
  unfold bind, modify, getSession. cbv beta iota.
  unfold logOfferPrefix, initiateWebRTCBridge, bind, getSession.
  destruct (opt (opt call (js "session")) (js "sdp"));
    cbn [whatsappOfferSdp setWhatsappOfferSdp setCurrentCallId callInProgress
         ret raise sessionOf traceOf fst snd app];
    rewrite ?Hflag; cbn; split; reflexivity.
Qed.

(** C2, as the code has it.  While [callInProgress] is true, a [connect]
    webhook (of the active call or of another one) starts no second
    bridge: nothing is posted, emitted or scheduled, the response is 200,
    and the flag, both legs, the browser offer and the browser socket
    are what they were.  The call id and the provider offer of the new
    event are stored over the ones of the active call. *)
Theorem connect_in_progress_starts_no_bridge : forall call contact env s,
  callInProgress s = true ->
  truthy (field call (js "id")) = true ->
  field call (js "event") = VStr (js "connect") ->
  sessionOf (callEvents (callEventBody call contact) env s)
  = setWhatsappOfferSdp (opt (opt call (js "session")) (js "sdp"))
                        (setCurrentCallId (field call (js "id")) s)
  /\ forallb isSilent (traceOf (callEvents (callEventBody call contact) env s))
     = true
  /\ statusCodes (traceOf (callEvents (callEventBody call contact) env s))
     = [200%Z].
Proof.
  intros call contact env s Hflag Hid Hev.
  assert (Hevt : truthy (field call (js "event")) = true)
    by (rewrite Hev; reflexivity).
  rewrite (callEvents_callEventBody call contact env s Hid Hevt).
  destruct (callEvent_connect_in_progress call env s Hflag Hev) as [Hs Ht].
  destruct (callEvent call env s) as [[[[] | e] s1] t1];
    cbn in Hs, Ht; subst s1 t1; repeat split.
Qed.

Lemma connect_in_progress_starts_no_bridge_witness :
  callInProgress afterSecondConnect = true
  /\ legs afterSecondConnect = legs bridgedSession
  /\ browserOfferSdp afterSecondConnect = browserOfferSdp bridgedSession.
Proof.
  assert (H := connect_in_progress_starts_no_bridge
                 (connectCall "zzz999" (js "v=0" ++ CRLF)) contactA happyEnv
                 bridgedSession eq_refl eq_refl eq_refl).
  destruct H as [H _]. unfold afterSecondConnect, secondConnect.
  rewrite H. repeat split.
Defined.

(** C2 as stated fails: the second [connect] replaces the stored call id
    and the stored provider offer. *)
Lemma second_connect_overwrites_call :
  currentCallId bridgedSession = VStr (js "abc123")
  /\ currentCallId afterSecondConnect = VStr (js "zzz999")
  /\ whatsappOfferSdp bridgedSession = VStr providerSdp
  /\ whatsappOfferSdp afterSecondConnect = VStr (js "v=0" ++ CRLF)
  /\ afterSecondConnect <> bridgedSession.
Proof.
  repeat split; try (vm_compute; reflexivity).
  intro H. apply (f_equal currentCallId) in H. vm_compute in H. discriminate H.
Qed.

(** ** Terminal events *)




Example terminal_events_on_bridged_call :
  callInProgress afterTerminateCall = false
  /\ callInProgress afterWebhookTerminate = false
  /\ callInProgress afterDisconnect = false
  /\ callInProgress afterBridgeError = false.
Proof. vm_compute. repeat split. Qed.


(** The [reject-call] handler stops at its call of [rejectCall], before
    the line that resets the flag. *)
Example rejectCall_throws :
  rejectCallHandler socketA (VStr (js "abc123")) bridgedSession
  = (Throws (ReferenceError (js "rejectCall is not defined")),
     bridgedSession, []).
Proof. reflexivity. Qed.

(** ** [pre_accept] and [accept] *)

Lemma negotiate_aborts_quietly : forall env, emits abortsQuietly (negotiate env).
Proof. intro env. unfold negotiate. emits_run. Qed.

(** C3, as the code has it.  In a bridging run whose [pre_accept] request
    is refused or fails, the timer that sends [accept] is not scheduled
    and no [accept] request is posted, and the in-progress flag is false
    when the run ends.  No [call-failed] event is emitted: the failure is
    written to the console only. *)
Theorem pre_accept_failure_aborts : forall env s,
  callInProgress s = false ->
  succeeded (preAcceptReply env) = false ->
  callInProgress (sessionOf (initiateWebRTCBridge env s)) = false
  /\ Forall abortsQuietly (traceOf (initiateWebRTCBridge env s)).
Proof.
  intros env s Hflag Hfail.
  unfold initiateWebRTCBridge, bind, getSession. cbv beta iota.
  rewrite Hflag. cbv iota.
  match goal with |- context [if ?b then _ else _] => destruct b end.
  - cbn. split; [ assumption | constructor ].
  - rewrite startBridge_run, Hfail.
    pose proof (negotiate_aborts_quietly env (setCallInProgress true s)) as Hq.
    destruct (negotiate env (setCallInProgress true s)) as [[[f | e] s1] t1];
      cbn in Hq |- *; (split; [ reflexivity | ]).
    + apply Forall_app. split; [ assumption | ].
      repeat constructor.
    + apply Forall_app. split; [ assumption | ].
      repeat constructor.
Qed.

Lemma pre_accept_failure_aborts_witness :
  callInProgress (sessionOf refusedRun) = false
  /\ Forall abortsQuietly (traceOf refusedRun).
Proof.
  apply (pre_accept_failure_aborts refusedEnv
           (rendezvous socketA browserSdp providerSdp (VStr (js "abc123"))));
    reflexivity.
Defined.

(** C3 as stated fails: the run of the example call with [pre_accept]
    refused posts the [pre_accept] request and emits the browser answer,
    and that is all the browser gets; there is no [call-failed] event. *)
Lemma refused_run_emits_no_call_failed :
  succeeded (preAcceptReply refusedEnv) = false
  /\ traceOf refusedRun
     = [SocketEmit socketA (js "browser-answer")
                   [VStr (js "v=0" ++ CRLF ++ js "a=setup:active" ++ CRLF)];
        Post ByAnswerCallToWhatsApp
             (Answer (VStr (js "abc123")) (js "pre_accept")
                     (finalWaSdp providerAnswerSdp));
        ConsoleError (js "Pre-accept failed. Aborting accept step.");
        SetTimeout ClearOffersTask 5000]
  /\ existsb (isEmitOf "call-failed") (traceOf refusedRun) = false.
Proof. vm_compute. repeat split. Qed.


Lemma isTrue_spec : forall v, isTrue v = true <-> v = VBool true.
Proof.
  intro v. destruct v as [ | | [ | ] | | | | ]; cbn;
    split; intro H; try discriminate H; reflexivity.
Qed.



(** ** The two arrival orders *)





Lemma browserOffer_run : forall socket b callId env s,
  browserOffer socket (VStr b) callId env s
  = initiateWebRTCBridge env (browserOfferStored socket b callId s).
Proof.
  intros socket b callId env s.
  unfold browserOffer, browserOfferStored, when, bind, modify, ret.
  cbv beta iota zeta.
  destruct (truthy callId); cbv beta iota;
    match goal with
    | |- context [initiateWebRTCBridge env ?x] =>
        destruct (initiateWebRTCBridge env x) as [[r s1] t1]
    end; reflexivity.
Qed.





(** ** The permission gate *)

Lemma checkCallPermission_run : forall phoneNumber env s,
  exists st t,
    checkCallPermission phoneNumber env s = (Returns st, s, t)
    /\ Forall isProbe t.
Proof.
  intros phoneNumber env s. destruct env as [offer reply treply].
  unfold checkCallPermission, tryCatch, bind, axiosPost, tell, when.
  cbn [probeOffer probeReply probeTerminateReply].
  destruct offer as [sdp | ];
    [ | eexists; eexists; split; [ reflexivity | constructor ] ].
  destruct reply as [d | m rd]; split_run;
    eexists; eexists; (split; [ reflexivity | repeat constructor ]).
Qed.

Lemma permissionRequestFlow_run : forall socket n reply s,
  exists name args,
    permissionRequestFlow socket n reply s
    = (Returns tt, s,
       [Post BySendCallPermissionRequest (PermissionRequest n);
        SocketEmit socket name args]).
Proof.
  intros socket n reply s.
  unfold permissionRequestFlow, sendCallPermissionRequest, tryCatch, bind,
    axiosPost, tell, emit.
  destruct reply as [d | m rd]; split_run; eexists; eexists; reflexivity.
Qed.

(** A check that does not grant permission has posted the probe
    [connect], if the engine made the probe offer, and nothing else. *)
Lemma checkCallPermission_not_granted : forall phoneNumber env s st s1 t,
  checkCallPermission phoneNumber env s = (Returns st, s1, t) ->
  hasPermission st = false ->
  t = probeConnect phoneNumber env.
Proof.
  intros phoneNumber [offer reply treply] s st s1 t.
  unfold probeConnect.
  unfold checkCallPermission, tryCatch, bind, axiosPost, tell, when.
  cbn [probeOffer probeReply probeTerminateReply].
  destruct offer as [sdp | ]; [ destruct reply as [d | m rd] | ]; cbn.
  - match goal with
    | |- context [if ?b then _ else _] => destruct b
    end; cbn.
    + match goal with
      | |- context [if ?b then _ else _] => destruct b
      end; cbn; [ destruct treply; cbn | ];
        intros H Hst; injection H as <- _ _; discriminate Hst.
    + intros H _. injection H as _ _ <-. reflexivity.
  - match goal with
    | |- context [if ?b then _ else _] => destruct b
    end; cbn; intros H _; injection H as _ _ <-; reflexivity.
  - intros H _. injection H as _ _ <-. reflexivity.
Qed.

Lemma filter_isConnect_probeConnect : forall phoneNumber env,
  filter isConnect (probeConnect phoneNumber env) = probeConnect phoneNumber env.
Proof.
  intros phoneNumber env. unfold probeConnect.
  destruct (probeOffer env); reflexivity.
Qed.

Lemma isTerminateRequest_probeConnect : forall phoneNumber env,
  existsb isTerminateRequest (probeConnect phoneNumber env) = false.
Proof.
  intros phoneNumber env. unfold probeConnect.
  destruct (probeOffer env); reflexivity.
Qed.

(** C9, as the code has it.  When [checkCallPermission] does not return
    a granted status (denied, unknown or error), the [smart-call]
    handler stores the socket, emits [permission-needed] for the
    formatted number, posts the permission request for it and reports
    its outcome, and [initiateDirectCall] is not called.  A [connect]
    request is posted all the same: the check itself probes with a
    [connect] to the number (when the engine made the probe offer), it
    comes before [permission-needed], it is the only [connect] of the
    run, and the run posts no [terminate] for it. *)
Theorem smart_call_without_permission : forall socket phoneNumber env s,
  (forall st,
      resultOf (checkCallPermission (formatNumber phoneNumber) (probe env)
                                    (setBrowserSocket (Some socket) s))
      = Returns st -> hasPermission st = false) ->
  (exists name args,
      smartCall socket phoneNumber env s
      = (Returns tt, setBrowserSocket (Some socket) s,
         probeConnect (formatNumber phoneNumber) (probe env)
         ++ [SocketEmit socket (js "permission-needed")
               [VObj [(js "phoneNumber", VStr (formatNumber phoneNumber))]];
             Post BySendCallPermissionRequest
                  (PermissionRequest (formatNumber phoneNumber));
             SocketEmit socket name args]))
  /\ filter isConnect (traceOf (smartCall socket phoneNumber env s))
     = probeConnect (formatNumber phoneNumber) (probe env)
  /\ existsb isTerminateRequest (traceOf (smartCall socket phoneNumber env s))
     = false.
Proof.
  intros socket phoneNumber env s Hcheck.
  destruct (checkCallPermission_run (formatNumber phoneNumber) (probe env)
              (setBrowserSocket (Some socket) s)) as (st & t & Hrun & Ht).
  rewrite Hrun in Hcheck. specialize (Hcheck st eq_refl).
  pose proof (checkCallPermission_not_granted _ _ _ _ _ _ Hrun Hcheck) as Hprobe.
  destruct (permissionRequestFlow_run socket (formatNumber phoneNumber)
              (requestReply env) (setBrowserSocket (Some socket) s))
    as (name & args & Hflow).
  assert (Hsmart :
            smartCall socket phoneNumber env s
            = (Returns tt, setBrowserSocket (Some socket) s,
               probeConnect (formatNumber phoneNumber) (probe env)
               ++ [SocketEmit socket (js "permission-needed")
                     [VObj [(js "phoneNumber",
                             VStr (formatNumber phoneNumber))]];
                   Post BySendCallPermissionRequest
                        (PermissionRequest (formatNumber phoneNumber));
                   SocketEmit socket name args])).
  { rewrite <- Hprobe. unfold smartCall. cbv zeta.
    unfold tryCatch at 1. unfold bind at 1. unfold modify at 1.
    cbv beta iota.
    unfold bind at 1. unfold tryCatch at 1. rewrite Hrun. cbv beta iota.
    rewrite Hcheck. cbv iota.
    unfold bind at 1. unfold emit at 1. unfold tell at 1. cbv beta iota.
    rewrite Hflow. reflexivity. }
  split; [ exists name, args; exact Hsmart | ].
  rewrite Hsmart. cbn [traceOf snd].
  rewrite filter_app, existsb_app, filter_isConnect_probeConnect,
    isTerminateRequest_probeConnect.
  split; [ apply app_nil_r | reflexivity ].
Qed.

Lemma smart_call_without_permission_witness :
  filter isConnect
         (traceOf (smartCall socketA (js "+15550001111") deniedEnv
                             initialSession))
  = [Post ByCheckCallPermission (Connect (js "15550001111") (js "v=0" ++ CRLF))].
Proof.
  destruct (smart_call_without_permission socketA (js "+15550001111")
              deniedEnv initialSession) as (_ & H & _).
  - intros st H. vm_compute in H. injection H as <-. reflexivity.
  - rewrite H. reflexivity.
Defined.

(** C9 as stated fails: the provider answers the probe as it answers a
    call it has set up, the check reads that as no permission, and the
    run has posted a [connect] request to the target, which it does not
    terminate, before it emits [permission-needed]. *)
Lemma smart_call_probe_is_a_connect :
  resultOf (checkCallPermission (js "15550001111") (probe unknownEnv)
                                (setBrowserSocket (Some socketA) initialSession))
  = Returns {| hasPermission := false; status := js "unknown" |}
  /\ traceOf (smartCall socketA (js "+15550001111") unknownEnv initialSession)
     = [Post ByCheckCallPermission
             (Connect (js "15550001111") (js "v=0" ++ CRLF));
        SocketEmit socketA (js "permission-needed")
          [VObj [(js "phoneNumber", VStr (js "15550001111"))]];
        Post BySendCallPermissionRequest (PermissionRequest (js "15550001111"));
        SocketEmit socketA (js "permission-request-sent")
          [VObj [(js "phoneNumber", VStr (js "15550001111"));
                 (js "messageId", VStr (js "wamid.1"))]]]
  /\ existsb (isConnectTo (js "15550001111"))
             (traceOf (smartCall socketA (js "+15550001111") unknownEnv
                                 initialSession)) = true
  /\ existsb isTerminateRequest
             (traceOf (smartCall socketA (js "+15550001111") unknownEnv
                                 initialSession)) = false.
Proof. vm_compute. repeat split. Qed.

(** * Further properties *)

(** ** What a statement can do to the session *)

Section Keeps.

Variable R : Session -> Session -> Prop.
Hypothesis R_refl : forall s, R s s.
Hypothesis R_trans : forall a b c, R a b -> R b c -> R a c.

Lemma keeps_ret : forall A (a : A), keeps R (ret a).
Proof. intros A a s. apply R_refl. Qed.

Lemma keeps_raise : forall A e, keeps R (raise e : M A).
Proof. intros A e s. apply R_refl. Qed.

Lemma keeps_getSession : keeps R getSession.
Proof. intros s. apply R_refl. Qed.

Lemma keeps_tell : forall e, keeps R (tell e).
Proof. intros e s. apply R_refl. Qed.

Lemma keeps_modify : forall f, (forall s, R s (f s)) -> keeps R (modify f).
Proof. intros f Hf s. apply Hf. Qed.

Lemma keeps_bind : forall A B (m : M A) (k : A -> M B),
  keeps R m -> (forall a, keeps R (k a)) -> keeps R (bind m k).
Proof.
  intros A B m k Hm Hk s. unfold bind. specialize (Hm s).
  destruct (m s) as [[[a | e] s1] t1]; cbn in *.
  - specialize (Hk a s1). destruct (k a s1) as [[r s2] t2]; cbn in *.
    eapply R_trans; eassumption.
  - assumption.
Qed.

Lemma keeps_tryCatch : forall A (m : M A) h,
  keeps R m -> (forall e, keeps R (h e)) -> keeps R (tryCatch m h).
Proof.
  intros A m h Hm Hh s. unfold tryCatch. specialize (Hm s).
  destruct (m s) as [[[a | e] s1] t1]; cbn in *.
  - assumption.
  - specialize (Hh e s1). destruct (h e s1) as [[r s2] t2]; cbn in *.
    eapply R_trans; eassumption.
Qed.

End Keeps.

(** [keeps_run tac]: split a statement into its steps; [tac] proves what
    each assignment to the session does. *)
Ltac keeps_step Hrefl Htrans tac :=
  match goal with
  | |- keeps _ (bind _ _) => apply (keeps_bind _ Htrans); [ | intro ]
  | |- keeps _ (tryCatch _ _) => apply (keeps_tryCatch _ Htrans); [ | intro ]
  | |- keeps _ (ret _) => apply (keeps_ret _ Hrefl)
  | |- keeps _ (raise _) => apply (keeps_raise _ Hrefl)
  | |- keeps _ (modify _) => apply keeps_modify; tac
  | |- keeps _ getSession => apply (keeps_getSession _ Hrefl)
  | |- keeps _ (tell _) => apply (keeps_tell _ Hrefl)
  | |- keeps _ (if ?b then _ else _) => destruct b
  | |- keeps _ (match ?x with _ => _ end) => destruct x
  | |- keeps _ (let _ := _ in _) => cbv zeta
  | |- keeps _ _ => progress unfold_helpers
  | |- keeps _ _ => progress unfold_calls
  end.

Ltac keeps_run Hrefl Htrans tac := repeat keeps_step Hrefl Htrans tac.

Lemma neverThrows_tryCatch : forall A (m : M A) h,
  (forall e, neverThrows (h e)) -> neverThrows (tryCatch m h).
Proof.
  intros A m h Hh s. unfold tryCatch.
  destruct (m s) as [[[a | e] s1] t1].
  - exists a. reflexivity.
  - destruct (Hh e s1) as [a Ha]. exists a.
    destruct (h e s1) as [[r s2] t2]. exact Ha.
Qed.

Lemma eqb_eq : forall a b, eqb a b = true <-> a = b.
Proof.
  induction a as [ | x a IH]; destruct b as [ | y b]; cbn;
    try (split; [ discriminate | discriminate ]); try tauto.
  rewrite andb_true_iff, N.eqb_eq, IH. split.
  - intros [-> ->]. reflexivity.
  - intros H. injection H as -> ->. auto.
Qed.

Lemma isStr_spec : forall v lit, isStr v lit = true <-> v = VStr lit.
Proof.
  intros v lit. destruct v; cbn; try (split; [ discriminate | discriminate ]).
  rewrite eqb_eq. split; [ intros ->; reflexivity | intros H; injection H; auto ].
Qed.

(** ** The verification handshake *)

Lemma VERIFY_TOKEN_not_empty : forall envToken, VERIFY_TOKEN envToken <> [].
Proof. intros [[ | c t] | ]; discriminate. Qed.

(** X1.  GET [/call-events] answers 200 exactly when [hub.mode] is the
    string [subscribe] and [hub.verify_token] is the string
    [VERIFY_TOKEN], and then the body is the challenge; every other
    request gets 403 with the status text [Forbidden] as body.  An unset
    or empty environment variable makes [my_secret_token] the token, so
    no configuration makes the empty token verify. *)
Theorem verification_handshake : forall envToken mode token challenge,
  (verifyStatus (getCallEvents envToken mode token challenge) = 200%Z
   <-> mode = VStr (js "subscribe") /\ token = VStr (VERIFY_TOKEN envToken))
  /\ (mode = VStr (js "subscribe") /\ token = VStr (VERIFY_TOKEN envToken) ->
      getCallEvents envToken mode token challenge
      = {| verifyStatus := 200; verifyBody := challenge |})
  /\ (~ (mode = VStr (js "subscribe") /\ token = VStr (VERIFY_TOKEN envToken)) ->
      getCallEvents envToken mode token challenge
      = {| verifyStatus := 403; verifyBody := VStr (js "Forbidden") |})
  /\ (envToken = None \/ envToken = Some [] ->
      VERIFY_TOKEN envToken = js "my_secret_token")
  /\ verifyStatus (getCallEvents envToken mode (VStr []) challenge) = 403%Z.
Proof.
  intros envToken mode token challenge.
  assert (Hyes : mode = VStr (js "subscribe")
                 /\ token = VStr (VERIFY_TOKEN envToken) ->
                 getCallEvents envToken mode token challenge
                 = {| verifyStatus := 200; verifyBody := challenge |}).
  { intros [-> ->]. unfold getCallEvents.
    rewrite (proj2 (isStr_spec (VStr (js "subscribe")) _) eq_refl).
    rewrite (proj2 (isStr_spec (VStr (VERIFY_TOKEN envToken)) _) eq_refl).
    pose proof (VERIFY_TOKEN_not_empty envToken) as Hne.
    cbn. destruct (VERIFY_TOKEN envToken); [ contradiction | reflexivity ]. }
  assert (Hno : forall token',
             ~ (mode = VStr (js "subscribe")
                /\ token' = VStr (VERIFY_TOKEN envToken)) ->
             getCallEvents envToken mode token' challenge
             = {| verifyStatus := 403; verifyBody := VStr (js "Forbidden") |}).
  { intros token' Hnot. unfold getCallEvents.
    destruct (isStr mode (js "subscribe")) eqn:Hm.
    + destruct (isStr token' (VERIFY_TOKEN envToken)) eqn:Ht.
      * exfalso. apply Hnot. split; apply isStr_spec; assumption.
      * rewrite andb_false_r. reflexivity.
    + rewrite andb_false_r. reflexivity. }
  split; [ | split; [ exact Hyes | split; [ apply Hno | split ] ] ].
  - split.
    + intro H200.
      destruct (isStr mode (js "subscribe")) eqn:Hm;
        [ destruct (isStr token (VERIFY_TOKEN envToken)) eqn:Ht | ].
      * split; apply isStr_spec; assumption.
      * rewrite Hno in H200; [ discriminate H200 | ].
        intros [_ H]. apply isStr_spec in H. congruence.
      * rewrite Hno in H200; [ discriminate H200 | ].
        intros [H _]. apply isStr_spec in H. congruence.
    + intro H. rewrite (Hyes H). reflexivity.
  - intros [-> | ->]; reflexivity.
  - rewrite Hno; [ reflexivity | ].
    intros [_ H]. injection H as H. symmetry in H.
    exact (VERIFY_TOKEN_not_empty envToken H).
Qed.

(** ** The permission probe *)

Ltac probe_cases env :=
  destruct env as [offer reply treply];
  unfold checkCallPermission, tryCatch, bind, axiosPost, tell, when;
  cbn [probeOffer probeReply probeTerminateReply];
  destruct offer as [sdp | ]; [ destruct reply as [d | m rd] | ]; cbn.

Ltac split_if H :=
  match goal with
  | |- context [if ?b then _ else _] => destruct b eqn:H
  end.

(** Name the verdict of the run in the goal and go on with what is
    claimed about it. *)
Ltac probe_verdict st :=
  match goal with
  | |- exists st' t, ?run = _ /\ _ =>
      let H := fresh "Hrun" in
      let t := fresh "t" in
      assert (H : exists t, run = (Returns st, _, t))
        by (split_run; eexists; reflexivity);
      destruct H as [t H]; exists st, t; split; [ exact H | clear H ];
      cbn [hasPermission status]
  end.

(** X2.  [checkCallPermission] never throws and leaves the session as it
    is.  It reports permission only when the probe offer was made and the
    provider answered the probe [connect] with [success === true], and
    then with status [granted]; it reports [denied] exactly when the
    provider rejected the probe with error code 138006. *)
Theorem permission_granted_only_on_success : forall phoneNumber env s,
  exists st t,
    checkCallPermission phoneNumber env s = (Returns st, s, t)
    /\ (hasPermission st = true <->
        exists sdp d,
          probeOffer env = Some sdp /\ probeReply env = Resolved d
          /\ isTrue (opt d (js "success")) = true)
    /\ (hasPermission st = true -> status st = js "granted")
    /\ (status st = js "denied" <->
        exists sdp m rd,
          probeOffer env = Some sdp /\ probeReply env = Rejected m rd
          /\ isNum (errorCodeOf rd) 138006 = true).
Proof.
  intros phoneNumber env s. probe_cases env.
  - split_if Hok.
    + probe_verdict {| hasPermission := true; status := js "granted" |}.
      split; [ split; [ intros _; exists sdp, d; auto | reflexivity ] | ].
      split; [ reflexivity | ].
      split; [ discriminate | intros (? & ? & ? & _ & H & _); discriminate H ].
    + probe_verdict {| hasPermission := false; status := js "unknown" |}.
      split; [ split; [ discriminate
                      | intros (? & ? & _ & H & H'); congruence ] | ].
      split; [ discriminate | ].
      split; [ discriminate | intros (? & ? & ? & _ & H & _); discriminate H ].
  - split_if Hcode.
    + probe_verdict {| hasPermission := false; status := js "denied" |}.
      split; [ split; [ discriminate
                      | intros (? & ? & _ & H & _); discriminate H ] | ].
      split; [ discriminate | ].
      split; [ intros _; exists sdp, m, rd; auto | reflexivity ].
    + probe_verdict {| hasPermission := false; status := js "error" |}.
      split; [ split; [ discriminate
                      | intros (? & ? & _ & H & _); discriminate H ] | ].
      split; [ discriminate | ].
      split; [ discriminate | intros (? & ? & ? & _ & H & H'); congruence ].
  - probe_verdict {| hasPermission := false; status := js "error" |}.
    split; [ split; [ discriminate
                    | intros (? & ? & H & _); discriminate H ] | ].
    split; [ discriminate | ].
    split; [ discriminate | intros (? & ? & ? & H & _); discriminate H ].
Qed.

(** X3.  The probe hangs up its own test call: [checkCallPermission]
    posts a [terminate] request exactly when the probe was granted and
    the response carries a [call_id], and then for that [call_id].  What
    the provider answers to that request does not change the verdict. *)
Theorem probe_call_is_terminated : forall phoneNumber env s c,
  (In (Post ByCheckCallPermission (Terminate c))
      (traceOf (checkCallPermission phoneNumber env s))
   <-> exists sdp d,
         probeOffer env = Some sdp /\ probeReply env = Resolved d
         /\ isTrue (opt d (js "success")) = true
         /\ c = field d (js "call_id") /\ truthy c = true)
  /\ forall treply',
       resultOf (checkCallPermission phoneNumber
                   {| probeOffer := probeOffer env;
                      probeReply := probeReply env;
                      probeTerminateReply := treply' |} s)
       = resultOf (checkCallPermission phoneNumber env s).
Proof.
  intros phoneNumber env s c. split.
  - probe_cases env.
    + split_if Hok; [ split_if Hid | ].
      * assert (Ht : traceOf
                       (checkCallPermission phoneNumber
                          {| probeOffer := Some sdp; probeReply := Resolved d;
                             probeTerminateReply := treply |} s)
                     = [Post ByCheckCallPermission (Connect phoneNumber sdp);
                        Post ByCheckCallPermission
                             (Terminate (field d (js "call_id")))])
          by (unfold checkCallPermission, tryCatch, bind, axiosPost, tell, when;
              cbn; rewrite Hok, Hid; destruct treply; reflexivity).
        unfold checkCallPermission, tryCatch, bind, axiosPost, tell, when in Ht.
        cbn in Ht. rewrite Hok, Hid in Ht. rewrite Ht. cbn. split.
        -- intros [H | [H | []]]; [ discriminate H | ].
           injection H as <-. exists sdp, d. auto.
        -- intros (? & ? & _ & H & _ & -> & _). injection H as <-. auto.
      * cbn. split.
        -- intros [H | []]. discriminate H.
        -- intros (? & ? & _ & H & _ & -> & H'). injection H as <-.
           cbn in H'. congruence.
      * cbn. split.
        -- intros [H | []]. discriminate H.
        -- intros (? & ? & _ & H & H' & _). injection H as <-.
           cbn in H'. congruence.
    + split_if Hcode; cbn; (split;
        [ intros [H | []]; discriminate H
        | intros (? & ? & _ & H & _); discriminate H ]).
    + split; [ intros [] | intros (? & ? & H & _); discriminate H ].
  - intro treply'. probe_cases env; try reflexivity.
    split_if Hok; [ split_if Hid | ]; try reflexivity.
    destruct treply, treply'; reflexivity.
Qed.

(** ** The outbound call *)

Lemma sameCall_refl : forall s, sameCall s s.
Proof. intro s. repeat split. Qed.

Lemma sameCall_trans : forall a b c, sameCall a b -> sameCall b c -> sameCall a c.
Proof.
  intros a b c (H1 & H2 & H3 & H4) (K1 & K2 & K3 & K4).
  repeat split; congruence.
Qed.

Ltac sameCall_run :=
  keeps_run sameCall_refl sameCall_trans ltac:(intro; repeat split).

Lemma emit_returns : forall socket name args, neverThrows (emit socket name args).
Proof. intros socket name args s. exists tt. reflexivity. Qed.

(** X4.  The two handlers that place a call, [smart-call] and
    [initiate-call], change nothing of the call itself, whatever argument
    the browser sends and whatever the engine and the provider answer:
    legs, streams, both offers and the in-progress flag stay as they
    were (they store only the socket and the call id).  With an argument
    that is neither [null] nor missing they never end in an exception;
    with [null] or no argument they throw a TypeError before the [try],
    with nothing stored and nothing emitted; with an argument whose
    [phoneNumber] is not a string all they do is emit [call-failed]. *)
Theorem outbound_handlers_leave_the_call_alone : forall socket payload,
  (forall env,
      keeps sameCall (onSmartCall socket payload env)
      /\ (nullish payload = false ->
          neverThrows (onSmartCall socket payload env))
      /\ (nullish payload = true ->
          forall s, onSmartCall socket payload env s
                    = (Throws (destructureError payload), s, []))
      /\ (nullish payload = false ->
          isString (field payload (js "phoneNumber")) = false ->
          forall s, onSmartCall socket payload env s
                    = (Returns tt, s,
                       [SocketEmit socket (js "call-failed")
                          [VStr (replaceError
                                   (field payload (js "phoneNumber")))]])))
  /\ (forall env,
         keeps sameCall (onInitiateCall socket payload env)
         /\ (nullish payload = false ->
             neverThrows (onInitiateCall socket payload env))
         /\ (nullish payload = true ->
             forall s, onInitiateCall socket payload env s
                       = (Throws (destructureError payload), s, []))
         /\ (nullish payload = false ->
             isString (field payload (js "phoneNumber")) = false ->
             forall s, onInitiateCall socket payload env s
                       = (Returns tt, s,
                          [SocketEmit socket (js "call-failed")
                             [VStr (replaceError
                                      (field payload (js "phoneNumber")))]]))).
Proof.
  intros socket payload. split; intro env.
  - split; [ | split; [ | split ] ].
    + unfold onSmartCall, withPhoneNumber.
      destruct (nullish payload); [ apply (keeps_raise _ sameCall_refl) | ].
      destruct (field payload (js "phoneNumber"));
        try (apply (keeps_tell _ sameCall_refl)).
      unfold smartCall, permissionRequestFlow, checkCallPermission,
        initiateDirectCall, sendCallPermissionRequest.
      sameCall_run.
    + intro Hp. unfold onSmartCall, withPhoneNumber. rewrite Hp.
      destruct (field payload (js "phoneNumber"));
        try apply emit_returns.
      unfold smartCall. apply neverThrows_tryCatch. intro e.
      apply emit_returns.
    + intros Hp s. unfold onSmartCall, withPhoneNumber. rewrite Hp.
      reflexivity.
    + intros Hp Hn s. unfold onSmartCall, withPhoneNumber. rewrite Hp.
      destruct (field payload (js "phoneNumber"));
        try discriminate Hn; reflexivity.
  - split; [ | split; [ | split ] ].
    + unfold onInitiateCall, withPhoneNumber.
      destruct (nullish payload); [ apply (keeps_raise _ sameCall_refl) | ].
      destruct (field payload (js "phoneNumber"));
        try (apply (keeps_tell _ sameCall_refl)).
      unfold initiateCall, checkCallPermission, initiateDirectCall.
      sameCall_run.
    + intro Hp. unfold onInitiateCall, withPhoneNumber. rewrite Hp.
      destruct (field payload (js "phoneNumber"));
        try apply emit_returns.
      unfold initiateCall. apply neverThrows_tryCatch. intro e.
      apply emit_returns.
    + intros Hp s. unfold onInitiateCall, withPhoneNumber. rewrite Hp.
      reflexivity.
    + intros Hp Hn s. unfold onInitiateCall, withPhoneNumber. rewrite Hp.
      destruct (field payload (js "phoneNumber"));
        try discriminate Hn; reflexivity.
Qed.

Ltac unfold_outbound :=
  unfold smartCall, initiateCall, permissionRequestFlow, checkCallPermission,
    initiateDirectCall, sendCallPermissionRequest, includesMethod, tryCatch,
    bind, axiosPost, tell, when, emit, modify, ret, raise.

(** X5.  A [smart-call] for a number with permission posts two [connect]
    requests to that number, first the probe of the check and then the
    call itself, emits [call-initiated], and stores the socket and the
    call id of the second response ([call_id], or [id] when there is no
    [call_id]). *)
Theorem smart_call_with_permission :
  forall socket phoneNumber env s sdp1 d1 sdp2 d2,
  probeOffer (probe env) = Some sdp1 ->
  probeReply (probe env) = Resolved d1 ->
  isTrue (opt d1 (js "success")) = true ->
  directOffer (direct env) = Some sdp2 ->
  directReply (direct env) = Resolved d2 ->
  isTrue (opt d2 (js "success")) || truthy (opt d2 (js "id")) = true ->
  filter (isConnectTo (formatNumber phoneNumber))
         (traceOf (smartCall socket phoneNumber env s))
  = [Post ByCheckCallPermission (Connect (formatNumber phoneNumber) sdp1);
     Post ByInitiateDirectCall (Connect (formatNumber phoneNumber) sdp2)]
  /\ In (SocketEmit socket (js "call-initiated") [])
        (traceOf (smartCall socket phoneNumber env s))
  /\ currentCallId (sessionOf (smartCall socket phoneNumber env s))
     = orElse (opt d2 (js "call_id")) (opt d2 (js "id"))
  /\ browserSocket (sessionOf (smartCall socket phoneNumber env s))
     = Some socket.
Proof.
  intros socket phoneNumber env s sdp1 d1 sdp2 d2 Hpo Hpr Hok Hdo Hdr Hdok.
  destruct env as [[po pr pt] [dof dr] rr]. cbn in Hpo, Hpr, Hdo, Hdr.
  subst po pr dof dr.
  unfold_outbound. cbn in Hok, Hdok |- *. rewrite Hok.
  destruct (truthy (field d1 (js "call_id"))) eqn:Hid; cbn in Hid |- *;
    rewrite ?Hid; cbn.
  - destruct pt; cbn; rewrite Hdok; cbn;
      rewrite !eqb_refl; cbn; repeat split; auto 10.
  - rewrite Hdok; cbn. rewrite !eqb_refl; cbn; repeat split; auto 10.
Qed.

Lemma smart_call_with_permission_witness :
  currentCallId (sessionOf (smartCall socketA (js "+15550001111") grantedEnv
                                      initialSession))
  = VStr (js "call-7").
Proof.
  destruct (smart_call_with_permission socketA (js "+15550001111") grantedEnv
              initialSession _ _ _ _ eq_refl eq_refl eq_refl eq_refl eq_refl
              eq_refl) as (_ & _ & H & _).
  rewrite H. reflexivity.
Defined.

Lemma probe_granted_run : forall phoneNumber env s sdp d,
  probeOffer env = Some sdp ->
  probeReply env = Resolved d ->
  isTrue (opt d (js "success")) = true ->
  exists t,
    checkCallPermission phoneNumber env s
    = (Returns {| hasPermission := true; status := js "granted" |}, s, t).
Proof.
  intros phoneNumber env s sdp d Hpo Hpr Hok.
  destruct env as [po pr pt]. cbn in Hpo, Hpr. subst po pr.
  unfold checkCallPermission, tryCatch, bind, axiosPost, tell, when.
  cbn in Hok |- *. rewrite Hok. split_run; eexists; reflexivity.
Qed.

(** What [initiateDirectCall] returns when the provider rejects the call
    and the error message is a string. *)
Lemma initiateDirectCall_rejected : forall phoneNumber env s sdp m rd text,
  directOffer env = Some sdp ->
  directReply env = Rejected m rd ->
  orElse (errorMessageOf rd) (VStr m) = VStr text ->
  initiateDirectCall phoneNumber env s
  = (Returns
       {| success := false; call_id := VUndefined;
          error :=
            if saysBusy text then
              VStr (js "The recipient is already on another call. Please try again later.")
            else if isNum (errorCodeOf rd) 138010 then
              VStr (js "Call rate limit reached. Please wait a moment before trying again.")
            else if isNum (errorCodeOf rd) 138006 then
              VStr (js "No approved call permission from recipient. Please request permission first.")
            else VStr text;
          data := rd |},
     s, [Post ByInitiateDirectCall (Connect phoneNumber sdp)]).
Proof.
  intros phoneNumber env s sdp m rd text Hdo Hdr Hmsg.
  destruct env as [dof dr]. cbn in Hdo, Hdr. subst dof dr.
  unfold initiateDirectCall, axiosPost, tryCatch, bind, tell, raise.
  cbn [directOffer directReply]. cbv beta iota zeta.
  cbn [responseDataOf messageOf].
  rewrite Hmsg. unfold includesMethod, saysBusy, ret. cbv beta iota.
  destruct (includes text (js "already ongoing")); cbv beta iota;
    [ reflexivity | ].
  destruct (includes text (js "already in progress")); cbv beta iota;
    [ reflexivity | ].
  destruct (includes text (js "busy")); reflexivity.
Qed.

(** X6.  When the check grants permission and the provider then rejects
    the call itself with error 138006 (with a string as error message),
    [smart-call] falls back to the permission request: it emits
    [call-failed] and [permission-needed], posts the permission request
    and reports its outcome, and the stored call id is not changed. *)
Theorem smart_call_falls_back_to_request :
  forall socket phoneNumber env s sdp1 d1 sdp2 m rd text,
  probeOffer (probe env) = Some sdp1 ->
  probeReply (probe env) = Resolved d1 ->
  isTrue (opt d1 (js "success")) = true ->
  directOffer (direct env) = Some sdp2 ->
  directReply (direct env) = Rejected m rd ->
  isNum (errorCodeOf rd) 138006 = true ->
  orElse (errorMessageOf rd) (VStr m) = VStr text ->
  exists before name args,
    traceOf (smartCall socket phoneNumber env s)
    = before
      ++ [Post ByInitiateDirectCall (Connect (formatNumber phoneNumber) sdp2);
          SocketEmit socket (js "call-failed")
            [VStr (js "No approved call permission from recipient. Sending permission request...")];
          SocketEmit socket (js "permission-needed")
            [VObj [(js "phoneNumber", VStr (formatNumber phoneNumber))]];
          Post BySendCallPermissionRequest
               (PermissionRequest (formatNumber phoneNumber));
          SocketEmit socket name args]
    /\ currentCallId (sessionOf (smartCall socket phoneNumber env s))
       = currentCallId s.
Proof.
  intros socket phoneNumber env s sdp1 d1 sdp2 m rd text
         Hpo Hpr Hok Hdo Hdr Hcode Hmsg.
  destruct (checkCallPermission_run (formatNumber phoneNumber) (probe env)
              (setBrowserSocket (Some socket) s)) as (st & t & Hrun & _).
  assert (Hst : hasPermission st = true).
  { destruct (probe_granted_run (formatNumber phoneNumber) (probe env)
                (setBrowserSocket (Some socket) s) sdp1 d1 Hpo Hpr Hok)
      as (t' & Hrun').
    rewrite Hrun in Hrun'. injection Hrun' as -> _. reflexivity. }
  destruct (permissionRequestFlow_run socket (formatNumber phoneNumber)
              (requestReply env) (setBrowserSocket (Some socket) s))
    as (name & args & Hflow).
  pose proof (initiateDirectCall_rejected (formatNumber phoneNumber)
                (direct env) (setBrowserSocket (Some socket) s) sdp2 m rd text
                Hdo Hdr Hmsg) as Hdirect.
  exists (t ++ [SocketEmit socket (js "call-status")
                  [VStr (js "Permission already granted. Making call directly...")]]),
         name, args.
  assert (Hsmart :
            smartCall socket phoneNumber env s
            = (Returns tt, setBrowserSocket (Some socket) s,
               (t ++ [SocketEmit socket (js "call-status")
                        [VStr (js "Permission already granted. Making call directly...")]])
               ++ [Post ByInitiateDirectCall
                        (Connect (formatNumber phoneNumber) sdp2);
                   SocketEmit socket (js "call-failed")
                     [VStr (js "No approved call permission from recipient. Sending permission request...")];
                   SocketEmit socket (js "permission-needed")
                     [VObj [(js "phoneNumber", VStr (formatNumber phoneNumber))]];
                   Post BySendCallPermissionRequest
                        (PermissionRequest (formatNumber phoneNumber));
                   SocketEmit socket name args])).
  { unfold smartCall. cbv zeta.
    unfold tryCatch at 1. unfold bind at 1. unfold modify at 1.
    cbv beta iota.
    unfold bind at 1. unfold tryCatch at 1. rewrite Hrun. cbv beta iota.
    rewrite Hst. cbv iota.
    unfold bind at 1. unfold emit at 1. unfold tell at 1. cbv beta iota.
    unfold bind at 1. rewrite Hdirect. cbv beta iota.
    cbn [success data]. rewrite Hcode. cbv iota.
    unfold bind at 1. unfold emit at 1. unfold tell at 1. cbv beta iota.
    unfold bind at 1. unfold emit at 1. unfold tell at 1. cbv beta iota.
    rewrite Hflow. cbn [app]. rewrite <- !app_assoc. reflexivity. }
  rewrite Hsmart. split; reflexivity.
Qed.

Lemma smart_call_falls_back_to_request_witness :
  existsb (isPostBy BySendCallPermissionRequest)
          (traceOf (smartCall socketA (js "+15550001111") revokedEnv
                              initialSession)) = true.
Proof.
  destruct (smart_call_falls_back_to_request socketA (js "+15550001111")
              revokedEnv initialSession _ _ _ _ _ _ eq_refl eq_refl eq_refl
              eq_refl eq_refl eq_refl eq_refl)
    as (before & name & args & H & _).
  rewrite H, existsb_app. cbn. apply orb_true_r.
Defined.

(** A handler of [tryCatch] matters only for the exceptions the body can
    throw. *)
Lemma emits_tryCatch_thrown : forall P A (m : M A) h,
  emits P m ->
  (forall e, (exists s, resultOf (m s) = Throws e) -> emits P (h e)) ->
  emits P (tryCatch m h).
Proof.
  intros P A m h Hm Hh s. unfold tryCatch. specialize (Hm s).
  destruct (m s) as [[[a | e] s1] t1] eqn:Hrun; cbn in *.
  - assumption.
  - assert (He : exists s0, resultOf (m s0) = Throws e)
      by (exists s; rewrite Hrun; reflexivity).
    specialize (Hh e He s1). destruct (h e s1) as [[r s2] t2]; cbn in *.
    apply Forall_app. split; assumption.
Qed.

(** X7.  [initiate-call] is fail-closed.  Whatever the engine and the
    provider answer, it never emits [call-status] (the branch that would
    place the call after a failed check is never taken) and never posts a
    permission request.  When the check does not grant permission,
    [initiateDirectCall] is not called: the run stores the socket, posts
    the probe [connect] of the check itself (when the engine made the
    probe offer) and nothing else, and emits one [call-failed]. *)
Theorem initiate_call_is_fail_closed : forall socket phoneNumber env s,
  Forall noFailOpen (traceOf (initiateCall socket phoneNumber env s))
  /\ ((forall st,
          resultOf (checkCallPermission (formatNumber phoneNumber)
                      (checkProbe env) (setBrowserSocket (Some socket) s))
          = Returns st -> hasPermission st = false) ->
      initiateCall socket phoneNumber env s
      = (Returns tt, setBrowserSocket (Some socket) s,
         probeConnect (formatNumber phoneNumber) (checkProbe env)
         ++ [SocketEmit socket (js "call-failed")
               [VStr (js "No approved call permission from the recipient. Please send a permission request first (Step 1) and wait for the user to approve.")]])).
Proof.
  intros socket phoneNumber env s. split.
  - revert s. change (emits noFailOpen (initiateCall socket phoneNumber env)).
    unfold initiateCall. apply emits_tryCatch; [ | intro e; emits_run ].
    cbv zeta. apply emits_bind; [ emits_run | intros _ ].
    apply emits_bind; [ | intro returned; unfold initiateDirectCall; emits_run ].
    apply emits_tryCatch_thrown.
    + unfold checkCallPermission. emits_run.
    + intros e [s0 H]. exfalso. revert H. unfold bind.
      destruct (checkCallPermission_run (formatNumber phoneNumber)
                  (checkProbe env) s0) as (st & t & -> & _).
      destruct (hasPermission st); cbn; discriminate.
  - intro Hcheck.
    destruct (checkCallPermission_run (formatNumber phoneNumber)
                (checkProbe env) (setBrowserSocket (Some socket) s))
      as (st & t & Hrun & Ht).
    rewrite Hrun in Hcheck. specialize (Hcheck st eq_refl).
    rewrite <- (checkCallPermission_not_granted _ _ _ _ _ _ Hrun Hcheck).
    unfold initiateCall. cbv zeta.
    unfold tryCatch at 1. unfold bind at 1. unfold modify at 1.
    cbv beta iota.
    unfold bind at 1. unfold tryCatch at 1. unfold bind at 1.
    rewrite Hrun. cbv beta iota. rewrite Hcheck. cbn [negb]. cbv iota.
    unfold bind at 1. unfold emit at 1. unfold tell at 1. cbv beta iota.
    unfold ret. cbv beta iota. rewrite !app_nil_r. reflexivity.
Qed.

Lemma initiate_call_is_fail_closed_witness :
  traceOf (initiateCall socketA (js "+15550001111") deniedCallEnv
                        initialSession)
  = [Post ByCheckCallPermission (Connect (js "15550001111") (js "v=0" ++ CRLF));
     SocketEmit socketA (js "call-failed")
       [VStr (js "No approved call permission from the recipient. Please send a permission request first (Step 1) and wait for the user to approve.")]].
Proof.
  destruct (initiate_call_is_fail_closed socketA (js "+15550001111")
              deniedCallEnv initialSession) as [_ H].
  rewrite H; [ reflexivity | ].
  intros st Hst. vm_compute in Hst. injection Hst as <-. reflexivity.
Defined.

(** ** From the server's failure to the browser's message *)

(** X8.  When the check grants permission and the provider rejects the
    call of [initiate-call] with a string as error message, the handler
    emits one [call-failed] after the [connect] request, and the
    browser's [call-failed] handler files it as follows: error code
    138006 as a permission issue; otherwise a message that says busy,
    already ongoing or already in progress as "already on another call",
    with the retry button after 30 seconds; otherwise error code 138010
    as a rate limit, without a retry button. *)
Theorem rejected_call_reaches_the_browser_by_kind :
  forall socket phoneNumber env s sdp1 d1 sdp2 m rd text,
  probeOffer (checkProbe env) = Some sdp1 ->
  probeReply (checkProbe env) = Resolved d1 ->
  isTrue (opt d1 (js "success")) = true ->
  directOffer (placement env) = Some sdp2 ->
  directReply (placement env) = Rejected m rd ->
  orElse (errorMessageOf rd) (VStr m) = VStr text ->
  exists before payload,
    traceOf (initiateCall socket phoneNumber env s)
    = before
      ++ [Post ByInitiateDirectCall (Connect (formatNumber phoneNumber) sdp2);
          SocketEmit socket (js "call-failed") [payload]]
    /\ (isNum (errorCodeOf rd) 138006 = true ->
        callFailed payload
        = Returns {| shownAs := PermissionIssue; retryButtonAfter := None |})
    /\ (isNum (errorCodeOf rd) 138006 = false -> saysBusy text = true ->
        callFailed payload
        = Returns {| shownAs := AlreadyOnAnotherCall;
                     retryButtonAfter := Some 30000%Z |})
    /\ (isNum (errorCodeOf rd) 138006 = false -> saysBusy text = false ->
        isNum (errorCodeOf rd) 138010 = true ->
        callFailed payload
        = Returns {| shownAs := RateLimit; retryButtonAfter := None |}).
Proof.
  intros socket phoneNumber env s sdp1 d1 sdp2 m rd text
         Hpo Hpr Hok Hdo Hdr Hmsg.
  destruct (probe_granted_run (formatNumber phoneNumber) (checkProbe env)
              (setBrowserSocket (Some socket) s) sdp1 d1 Hpo Hpr Hok)
    as (t & Hrun).
  pose proof (initiateDirectCall_rejected (formatNumber phoneNumber)
                (placement env) (setBrowserSocket (Some socket) s) sdp2 m rd
                text Hdo Hdr Hmsg) as Hdirect.
  assert (Hcall :
            exists payload,
              initiateCall socket phoneNumber env s
              = (Returns tt, setBrowserSocket (Some socket) s,
                 t ++ [Post ByInitiateDirectCall
                            (Connect (formatNumber phoneNumber) sdp2);
                       SocketEmit socket (js "call-failed") [payload]])
              /\ payload
                 = if isNum (errorCodeOf rd) 138006 then
                     VStr (js "No approved call permission from recipient. Please send a permission request first (Step 1) and wait for the user to approve.")
                   else if saysBusy text then
                     VStr (js "The recipient is already on another call. Please try again later.")
                   else if isNum (errorCodeOf rd) 138010 then
                     VStr (js "Call rate limit reached. Please wait a moment before trying again.")
                   else orElse (VStr text) (VStr (js "Failed to initiate call"))).
  { exists (if isNum (errorCodeOf rd) 138006 then
              VStr (js "No approved call permission from recipient. Please send a permission request first (Step 1) and wait for the user to approve.")
            else
              orElse
                (if saysBusy text then
                   VStr (js "The recipient is already on another call. Please try again later.")
                 else if isNum (errorCodeOf rd) 138010 then
                   VStr (js "Call rate limit reached. Please wait a moment before trying again.")
                 else if isNum (errorCodeOf rd) 138006 then
                   VStr (js "No approved call permission from recipient. Please request permission first.")
                 else VStr text)
                (VStr (js "Failed to initiate call"))).
    split.
    - unfold initiateCall. cbv zeta.
      unfold tryCatch at 1. unfold bind at 1. unfold modify at 1.
      cbv beta iota.
      unfold bind at 1. unfold tryCatch at 1. unfold bind at 1.
      rewrite Hrun. cbv beta iota. cbn [hasPermission negb]. cbv iota.
      unfold ret at 1. cbv beta iota.
      unfold bind at 1. rewrite Hdirect. cbv beta iota.
      cbn [success data error].
      destruct (isNum (errorCodeOf rd) 138006); cbv iota;
        unfold emit, tell; rewrite !app_nil_r; reflexivity.
    - destruct (isNum (errorCodeOf rd) 138006); [ reflexivity | ].
      destruct (saysBusy text); [ reflexivity | ].
      destruct (isNum (errorCodeOf rd) 138010); reflexivity. }
  destruct Hcall as (payload & Hcall & Hpayload).
  exists t, payload. rewrite Hcall. split; [ reflexivity | ].
  rewrite Hpayload. split; [ | split ].
  - intros ->. reflexivity.
  - intros -> ->. reflexivity.
  - intros -> -> ->. reflexivity.
Qed.

Lemma rejected_call_reaches_the_browser_by_kind_witness :
  exists before payload,
    traceOf (initiateCall socketA (js "+15550001111") busyCallEnv
                          initialSession)
    = before
      ++ [Post ByInitiateDirectCall
               (Connect (js "15550001111") (js "v=0" ++ CRLF));
          SocketEmit socketA (js "call-failed") [payload]]
    /\ callFailed payload
       = Returns {| shownAs := AlreadyOnAnotherCall;
                    retryButtonAfter := Some 30000%Z |}.
Proof.
  destruct (rejected_call_reaches_the_browser_by_kind socketA
              (js "+15550001111") busyCallEnv initialSession _ _ _ _ _ _
              eq_refl eq_refl eq_refl eq_refl eq_refl eq_refl)
    as (before & payload & Ht & _ & Hbusy & _).
  exists before, payload. split; [ exact Ht | ].
  apply Hbusy; reflexivity.
Defined.

(** ** The permission request *)

Lemma orElse_truthy : forall a b, truthy b = true -> truthy (orElse a b) = true.
Proof. intros a b Hb. unfold orElse. destruct (truthy a) eqn:Ha; assumption. Qed.

(** X9.  Sending the permission request never throws and never touches
    the session; it posts one request and tells the browser how it went
    with one event.  A resolved request is reported as
    [permission-request-sent] with the number and the id of the first
    message of the response; a rejected one as
    [permission-request-failed] with a reason that is never empty, and
    with the 24-hour text when the error code is 138009. *)
Theorem permission_request_is_always_reported : forall socket n reply s,
  exists name payload,
    permissionRequestFlow socket n reply s
    = (Returns tt, s,
       [Post BySendCallPermissionRequest (PermissionRequest n);
        SocketEmit socket name [payload]])
    /\ (forall d, reply = Resolved d ->
        name = js "permission-request-sent"
        /\ payload
           = VObj [(js "phoneNumber", VStr n);
                   (js "messageId",
                    opt (optFirst (opt d (js "messages"))) (js "id"))])
    /\ (forall m rd, reply = Rejected m rd ->
        name = js "permission-request-failed"
        /\ truthy payload = true
        /\ (isNum (errorCodeOf (orElse rd (VObj []))) 138009 = true ->
            payload
            = VStr (js "Rate limit reached for permission requests to this number. WhatsApp allows only one permission request every 24 hours."))).
Proof.
  intros socket n reply s.
  unfold permissionRequestFlow, sendCallPermissionRequest, axiosPost,
    tryCatch, bind, tell, emit, raise, ret.
  destruct reply as [d | m rd]; cbv beta iota zeta;
    cbn [sent messageId failure responseDataOf messageOf app].
  - eexists. eexists. split; [ reflexivity | ].
    split; [ intros d' H; injection H as <-; split; reflexivity | ].
    intros m rd H. discriminate H.
  - destruct (isNum (errorCodeOf (orElse rd (VObj []))) 138009) eqn:Hcode;
      cbv beta iota; cbn [sent messageId failure app];
      (eexists; eexists; split; [ reflexivity | ]);
      (split; [ intros d H; discriminate H | ]);
      intros m' rd' H; injection H as <- <-;
      (split; [ reflexivity | ]).
    + split; [ reflexivity | intros _; reflexivity ].
    + split; [ apply orElse_truthy; reflexivity | ].
      rewrite Hcode. discriminate.
Qed.

(** ** What a bridging run builds *)

Ltac split_in H :=
  repeat (cbn in H;
          match type of H with
          | context [if ?b then _ else _] => destruct b eqn:?
          | context [match ?x with Some _ => _ | None => _ end] =>
              destruct x eqn:?
          | context [match ?x with [] => _ | _ :: _ => _ end] =>
              destruct x eqn:?
          | context [match ?v with VStr _ => _ | _ => _ end] =>
              destruct v eqn:?
          end);
  cbn in H.

(** X10.  When [negotiate] returns, the session holds two fresh legs,
    neither closed.  The browser leg has the stored browser offer as
    remote description, the engine's answer as local description, and
    sends the provider's audio tracks; the provider leg has the patched
    provider offer as remote description, its answer as local
    description, and sends the audio tracks of the browser stream, of
    which there is at least one (the silent track when the browser sent
    none).  The run has sent the browser's answer to the stored socket as
    [browser-answer], its result is the patched answer of the provider
    leg, and the offers, the socket, the call id and the flag are
    unchanged. *)
Theorem negotiate_builds_both_legs : forall env s finalSdp s1 t1,
  (forall t, dummyTrack env = Some t -> isAudio t = true) ->
  negotiate env s = (Returns finalSdp, s1, t1) ->
  exists socket b w,
    browserSocket s = Some socket
    /\ browserAnswer env = Some b
    /\ waAnswer env = Some w
    /\ finalSdp = finalWaSdp w
    /\ In (SocketEmit socket (js "browser-answer") [VStr b]) t1
    /\ browserPc s1
       = negotiatedLeg (browserOfferSdp s) b (getAudioTracks (whatsappStream s1))
    /\ whatsappPc s1
       = negotiatedLeg
           (match whatsappOfferSdp s with
            | VStr sdp => VStr (modifiedWhatsappSdp sdp)
            | other => other
            end)
           w (getAudioTracks (browserStream s1))
    /\ getAudioTracks (browserStream s1) <> []
    /\ signalling s1 = signalling s
    /\ callInProgress s1 = callInProgress s.
Proof.
  intros env s finalSdp s1 t1 Hdummy H.
  destruct env as [bro wro bt dt wt ba wa pr].
  destruct s as [bpc bst wpc wst bo wo bs cid flag].
  cbn [dummyTrack] in Hdummy.
  unfold negotiate, engine, modifiedWhatsappSdpOf, emitToBrowser, emit, tell,
    modify, getSession, ret, raise, bind in H.
  split_in H; try discriminate H.
  all: injection H as <- <- <-; subst; cbn;
    eexists; eexists; eexists;
    repeat (split; [ reflexivity | ]);
    (split; [ left; reflexivity | ]);
    repeat (split; [ reflexivity | ]);
    (split; [ | split; reflexivity ]).
  all: try (rewrite filter_app;
            match goal with
            | Hf : filter isAudio _ = [] |- _ => rewrite Hf
            end;
            cbn; rewrite (Hdummy _ eq_refl); discriminate).
  all: match goal with
       | Hf : filter isAudio _ = _ :: _ |- _ => rewrite Hf; discriminate
       end.
Qed.

Lemma negotiate_builds_both_legs_witness :
  isOpen (browserPc
            (sessionOf (negotiate happyEnv
                          (rendezvous socketA browserSdp providerSdp
                                      (VStr (js "abc123")))))) = true
  /\ isOpen (whatsappPc
               (sessionOf (negotiate happyEnv
                             (rendezvous socketA browserSdp providerSdp
                                         (VStr (js "abc123")))))) = true.
Proof.
  destruct (negotiate_builds_both_legs happyEnv
              (rendezvous socketA browserSdp providerSdp (VStr (js "abc123")))
              (finalWaSdp providerAnswerSdp)
              (sessionOf (negotiate happyEnv
                            (rendezvous socketA browserSdp providerSdp
                                        (VStr (js "abc123")))))
              (traceOf (negotiate happyEnv
                          (rendezvous socketA browserSdp providerSdp
                                      (VStr (js "abc123"))))))
    as (socket & b & w & _ & _ & _ & _ & _ & Hb & Hw & _).
  - intros t Ht. injection Ht as <-. reflexivity.
  - vm_compute. reflexivity.
  - rewrite Hb, Hw. split; reflexivity.
Defined.

(** ** Invariants of the session *)

Ltac unfold_handlers :=
  unfold handle, browserOffer, browserCandidate, rejectCallHandler, acceptCall,
    terminateCallHandler, disconnect, onSmartCall, onInitiateCall,
    withPhoneNumber, smartCall, initiateCall, callEvents, dispatch,
    callBranch, callEvent, permissionsBranch, statusesBranch, messagesBranch,
    acceptTimer, clearOffersTimer, permissionRequestFlow, checkCallPermission,
    initiateDirectCall, sendCallPermissionRequest;
  cbv beta.

Ltac unfold_bridge :=
  unfold initiateWebRTCBridge, startBridge, bridgeBody, callControl.

Lemma run_keeps : forall (I : Session -> Prop),
  (forall i, keeps (fun s s' => I s -> I s') (handle i)) ->
  forall inputs s, I s -> I (run inputs s).
Proof.
  intros I Hstep inputs. unfold run.
  induction inputs as [ | i inputs IH]; intros s Hs; cbn.
  - exact Hs.
  - apply IH. apply (Hstep i s Hs).
Qed.

Lemma implies_refl : forall (I : Session -> Prop) s, I s -> I s.
Proof. auto. Qed.

Lemma implies_trans : forall (I : Session -> Prop) a b c,
  (I a -> I b) -> (I b -> I c) -> I a -> I c.
Proof. auto. Qed.

Lemma negotiate_legsSound : forall env,
  keeps (fun s s' => legsSound s -> legsSound s') (negotiate env).
Proof.
  intros env s (H1 & H2 & H3).
  destruct (negotiate env s) as [[r s1] t1] eqn:H.
  destruct env as [bro wro bt dt wt ba wa pr].
  destruct s as [bpc bst wpc wst bo wo bs cid flag].
  cbn in H1, H2, H3.
  unfold negotiate, engine, modifiedWhatsappSdpOf, emitToBrowser, emit, tell,
    modify, getSession, ret, raise, bind in H.
  split_in H; injection H as <- <- <-; cbn;
    repeat split; auto.
Qed.

Ltac legsSound_modify :=
  intros [[ | ] ? [ | ] ? ? ? ? ? ?] (? & ? & ?);
  cbn in *; repeat split; auto.

Lemma handle_legsSound : forall i,
  keeps (fun s s' => legsSound s -> legsSound s') (handle i).
Proof.
  intro i. destruct i; unfold_handlers; unfold_bridge;
    keeps_run (implies_refl legsSound) (implies_trans legsSound)
              legsSound_modify;
    apply negotiate_legsSound.
Qed.

(** X11.  Whatever handlers and timer callbacks run, in whatever order
    and with whatever answers of the engine and the provider, the server
    never closes a leg, and there is never a provider leg without a
    browser leg. *)
Theorem legs_are_never_closed : forall inputs,
  legsSound (run inputs initialSession).
Proof.
  intro inputs. apply (run_keeps legsSound handle_legsSound).
  repeat split. discriminate.
Qed.

Lemma negotiate_returns_negotiated : forall env s finalSdp s1 t1,
  negotiate env s = (Returns finalSdp, s1, t1) ->
  negotiated (browserPc s1) = true
  /\ negotiated (whatsappPc s1) = true
  /\ isSome (browserSocket s1) = true
  /\ callInProgress s1 = callInProgress s.
Proof.
  intros env s finalSdp s1 t1 H.
  destruct env as [bro wro bt dt wt ba wa pr].
  destruct s as [bpc bst wpc wst bo wo bs cid flag].
  unfold negotiate, engine, modifiedWhatsappSdpOf, emitToBrowser, emit, tell,
    modify, getSession, ret, raise, bind in H.
  split_in H; try discriminate H.
  all: injection H as <- <- <-; cbn; repeat split.
Qed.

(** X12.  Taken on its own, a bridging run that starts with the
    in-progress flag false leaves it true exactly when it went all the
    way: both offers and the socket were there, the negotiation returned
    and the provider answered [pre_accept] with [success] being [true].
    The session then has a browser socket and two legs that each have a
    remote and a local description, and the callback that sends [accept]
    is scheduled.  A run that stops at a guard or fails on the way
    leaves the flag false. *)
Theorem in_progress_means_negotiated : forall env s,
  callInProgress s = false ->
  (callInProgress (sessionOf (initiateWebRTCBridge env s)) = true
   <-> truthy (browserOfferSdp s) = true
       /\ truthy (whatsappOfferSdp s) = true
       /\ browserSocket s <> None
       /\ (exists finalSdp s1 t1,
              negotiate env (setCallInProgress true s)
              = (Returns finalSdp, s1, t1))
       /\ (exists d, preAcceptReply env = Resolved d
                     /\ opt d (js "success") = VBool true))
  /\ (callInProgress (sessionOf (initiateWebRTCBridge env s)) = true ->
      negotiated (browserPc (sessionOf (initiateWebRTCBridge env s))) = true
      /\ negotiated (whatsappPc (sessionOf (initiateWebRTCBridge env s))) = true
      /\ isSome (browserSocket (sessionOf (initiateWebRTCBridge env s))) = true
      /\ existsb isAcceptTimer (traceOf (initiateWebRTCBridge env s)) = true).
Proof.
  intros env s Hflag.
  assert (Hok : succeeded (preAcceptReply env) = true
                <-> exists d, preAcceptReply env = Resolved d
                              /\ opt d (js "success") = VBool true).
  { destruct (preAcceptReply env) as [d | m rd]; cbn [succeeded].
    - rewrite isTrue_spec. split.
      + intro H. exists d. auto.
      + intros (d' & Hd & H). injection Hd as <-. exact H.
    - split; [ discriminate | intros (d' & Hd & _); discriminate Hd ]. }
  destruct (truthy (browserOfferSdp s)) eqn:Hb.
  2: { rewrite initiateWebRTCBridge_not_ready by auto. cbn. rewrite Hflag.
       split; [ split; [ discriminate | intros (H & _); discriminate H ]
              | discriminate ]. }
  destruct (truthy (whatsappOfferSdp s)) eqn:Hw.
  2: { rewrite initiateWebRTCBridge_not_ready by auto. cbn. rewrite Hflag.
       split; [ split; [ discriminate | intros (_ & H & _); discriminate H ]
              | discriminate ]. }
  destruct (browserSocket s) as [socket | ] eqn:Hs.
  2: { rewrite initiateWebRTCBridge_not_ready by auto. cbn. rewrite Hflag.
       split; [ split; [ discriminate
                       | intros (_ & _ & H & _); contradiction ]
              | discriminate ]. }
  rewrite (initiateWebRTCBridge_ready env s socket Hflag Hb Hw Hs).
  rewrite startBridge_run.
  destruct (negotiate env (setCallInProgress true s)) as [[[f | e] s1] t1]
    eqn:Hneg.
  - pose proof (negotiate_returns_negotiated _ _ _ _ _ Hneg)
      as (Hnb & Hnw & Hsock & Hkeep).
    destruct (succeeded (preAcceptReply env)) eqn:Hpre;
      cbn [sessionOf traceOf fst snd].
    + split.
      * split.
        -- intros _. repeat (split; [ reflexivity || discriminate | ]).
           split; [ exists f, s1, t1; reflexivity | apply Hok; reflexivity ].
        -- intros _. rewrite Hkeep. destruct s; reflexivity.
      * intros _. repeat (split; [ assumption | ]).
        rewrite existsb_app. cbn. apply orb_true_r.
    + assert (Hoff : callInProgress (setCallInProgress false s1) = false)
        by (destruct s1; reflexivity).
      rewrite Hoff. split.
      * split; [ discriminate | ].
        intros (_ & _ & _ & _ & H). apply Hok in H. discriminate H.
      * discriminate.
  - cbn [sessionOf traceOf fst snd].
    assert (Hoff : callInProgress (setCallInProgress false s1) = false)
      by (destruct s1; reflexivity).
    rewrite Hoff. split.
    + split; [ discriminate | ].
      intros (_ & _ & _ & (f & s2 & t2 & H) & _). discriminate H.
    + discriminate.
Qed.

Lemma in_progress_means_negotiated_witness :
  negotiated
    (browserPc
       (sessionOf (initiateWebRTCBridge happyEnv
                     (rendezvous socketA browserSdp providerSdp
                                 (VStr (js "abc123")))))) = true
  /\ negotiated
       (whatsappPc
          (sessionOf (initiateWebRTCBridge happyEnv
                        (rendezvous socketA browserSdp providerSdp
                                    (VStr (js "abc123")))))) = true.
Proof.
  destruct (in_progress_means_negotiated happyEnv
              (rendezvous socketA browserSdp providerSdp (VStr (js "abc123"))))
    as (_ & H).
  - reflexivity.
  - destruct H as (H1 & H2 & _).
    + vm_compute. reflexivity.
    + split; [ exact H1 | exact H2 ].
Defined.

Lemma keeps_weaken : forall (R1 R2 : Session -> Session -> Prop) A (m : M A),
  (forall s s', R1 s s' -> R2 s s') -> keeps R1 m -> keeps R2 m.
Proof. intros R1 R2 A m H Hm s. apply H, Hm. Qed.

Lemma socketKept_refl : forall s, socketKept s s.
Proof. intros s H. exact H. Qed.

Lemma socketKept_trans : forall a b c,
  socketKept a b -> socketKept b c -> socketKept a c.
Proof. unfold socketKept. auto. Qed.

Lemma handle_socketKept : forall i, keeps socketKept (handle i).
Proof.
  intro i. destruct i; unfold_handlers; unfold_bridge; unfold negotiate;
    keeps_run socketKept_refl socketKept_trans
              ltac:(intros []; unfold socketKept; cbn; auto).
Qed.

(** X13.  A browser socket, once stored, stays stored: no handler and no
    timer callback sets it back to null, not even the [disconnect] of
    that socket. *)
Theorem browser_socket_is_never_cleared : forall inputs s,
  isSome (browserSocket s) = true ->
  isSome (browserSocket (run inputs s)) = true.
Proof.
  intros inputs s.
  apply (run_keeps (fun s => isSome (browserSocket s) = true)).
  exact handle_socketKept.
Qed.

Lemma browser_socket_is_never_cleared_witness :
  isSome (browserSocket
            (run [OnDisconnect socketA;
                  OnTerminateCall socketA (VStr (js "abc123")) successReply]
                 bridgedSession)) = true.
Proof.
  apply (browser_socket_is_never_cleared
           [OnDisconnect socketA;
            OnTerminateCall socketA (VStr (js "abc123")) successReply]
           bridgedSession).
  vm_compute. reflexivity.
Defined.

Lemma sameMedia_refl : forall s, sameMedia s s.
Proof. reflexivity. Qed.

Lemma sameMedia_trans : forall a b c,
  sameMedia a b -> sameMedia b c -> sameMedia a c.
Proof. unfold sameMedia. intros. congruence. Qed.

Lemma callUndisturbed_refl : forall s, callUndisturbed s s.
Proof. intros s H. auto. Qed.

Lemma callUndisturbed_trans : forall a b c,
  callUndisturbed a b -> callUndisturbed b c -> callUndisturbed a c.
Proof.
  unfold callUndisturbed. intros a b c Hab Hbc Ha.
  destruct (Hab Ha) as [Hm Hb]. destruct (Hbc Hb) as [Hm' Hc].
  split; congruence.
Qed.

Ltac sameMedia_run :=
  keeps_run sameMedia_refl sameMedia_trans ltac:(intro; reflexivity).

Ltac callUndisturbed_run :=
  keeps_run callUndisturbed_refl callUndisturbed_trans
            ltac:(intros ? ?; split; [ reflexivity | assumption ]).

Lemma initiateWebRTCBridge_callUndisturbed : forall env,
  keeps callUndisturbed (initiateWebRTCBridge env).
Proof.
  intros env s H. unfold initiateWebRTCBridge, bind, getSession.
  cbv beta iota. rewrite H. cbn. auto.
Qed.

Lemma sameMedia_undisturbed : forall s s',
  sameMedia s s' -> callInProgress s = true -> media s' = media s.
Proof. intros s s' H _. exact H. Qed.

Lemma callUndisturbed_undisturbed : forall s s',
  callUndisturbed s s' -> callInProgress s = true -> media s' = media s.
Proof. intros s s' H Hs. apply H, Hs. Qed.

Lemma callEvents_undisturbed : forall body env,
  keeps (fun s s' => callInProgress s = true -> media s' = media s)
        (callEvents body env).
Proof.
  intros body env. unfold callEvents. cbv zeta.
  set (v := opt (optFirst (opt (optFirst (opt body (js "entry")))
                               (js "changes"))) (js "value")).
  unfold dispatch.
  destruct (present v "calls").
  - unfold callBranch. cbv zeta.
    match goal with |- context [if ?b then _ else _] => destruct b end.
    + apply (keeps_weaken sameMedia); [ exact sameMedia_undisturbed | ].
      sameMedia_run.
    + unfold callEvent. cbv zeta.
      destruct (isStr (field (first (field v (js "calls"))) (js "event"))
                      (js "connect")).
      * apply (keeps_weaken callUndisturbed);
          [ exact callUndisturbed_undisturbed | ].
        callUndisturbed_run. apply initiateWebRTCBridge_callUndisturbed.
      * apply (keeps_weaken sameMedia); [ exact sameMedia_undisturbed | ].
        sameMedia_run.
  - apply (keeps_weaken sameMedia); [ exact sameMedia_undisturbed | ].
    unfold permissionsBranch, statusesBranch, messagesBranch.
    sameMedia_run.
Qed.

(** X14.  While a call is in progress, a run of a handler or of a timer
    callback other than [browser-candidate] creates no peer connection,
    sets no description and adds no track, whatever its arguments and
    whatever the engine and the provider answer: both legs are as the
    server left them, and a second offer, [accept-call] or [connect]
    webhook starts no second bridge.  ([browser-candidate] hands its
    candidate to the browser leg.) *)
Theorem legs_are_untouched_while_in_progress : forall i s,
  callInProgress s = true ->
  (forall socket candidate engineOk,
      i <> OnBrowserCandidate socket candidate engineOk) ->
  legs (sessionOf (handle i s)) = legs s.
Proof.
  intros i s Hflag Hnot.
  assert (Hmedia : media (sessionOf (handle i s)) = media s).
  { revert s Hflag.
    change (keeps (fun s s' => callInProgress s = true -> media s' = media s)
                  (handle i)).
    destruct i; unfold handle.
    - apply (keeps_weaken callUndisturbed);
        [ exact callUndisturbed_undisturbed | ].
      unfold browserOffer. callUndisturbed_run.
      apply initiateWebRTCBridge_callUndisturbed.
    - exfalso. exact (Hnot _ _ _ eq_refl).
    - apply (keeps_weaken sameMedia); [ exact sameMedia_undisturbed | ].
      unfold rejectCallHandler. sameMedia_run.
    - apply (keeps_weaken callUndisturbed);
        [ exact callUndisturbed_undisturbed | ].
      unfold acceptCall. callUndisturbed_run;
        apply initiateWebRTCBridge_callUndisturbed.
    - apply (keeps_weaken sameMedia); [ exact sameMedia_undisturbed | ].
      unfold terminateCallHandler. sameMedia_run.
    - apply (keeps_weaken sameMedia); [ exact sameMedia_undisturbed | ].
      unfold disconnect. sameMedia_run.
    - apply (keeps_weaken sameMedia); [ exact sameMedia_undisturbed | ].
      unfold onSmartCall, withPhoneNumber. unfold_handlers. sameMedia_run.
    - apply (keeps_weaken sameMedia); [ exact sameMedia_undisturbed | ].
      unfold onInitiateCall, withPhoneNumber. unfold_handlers. sameMedia_run.
    - apply callEvents_undisturbed.
    - apply (keeps_weaken sameMedia); [ exact sameMedia_undisturbed | ].
      unfold acceptTimer. sameMedia_run.
    - apply (keeps_weaken sameMedia); [ exact sameMedia_undisturbed | ].
      unfold clearOffersTimer. sameMedia_run. }
  unfold media in Hmedia. unfold legs.
  injection Hmedia as -> _ -> _. reflexivity.
Qed.

Lemma legs_are_untouched_while_in_progress_witness :
  legs (sessionOf (handle (OnCallEvents secondConnect happyEnv) bridgedSession))
  = legs bridgedSession.
Proof.
  apply (legs_are_untouched_while_in_progress
           (OnCallEvents secondConnect happyEnv) bridgedSession).
  - vm_compute. reflexivity.
  - intros socket candidate engineOk H. discriminate H.
Defined.

Lemma sameSignalling_refl : forall s, sameSignalling s s.
Proof. reflexivity. Qed.

Lemma sameSignalling_trans : forall a b c,
  sameSignalling a b -> sameSignalling b c -> sameSignalling a c.
Proof. unfold sameSignalling. intros. congruence. Qed.

(** X15.  A bridging run, and the callback that sends [accept], never
    change what the signalling handlers stored: both offers, the browser
    socket and the call id are the same after the run, however it ends.
    The offers are only forgotten by the timer of line 782. *)
Theorem bridge_keeps_the_signalling_state : forall env finalSdp reply s,
  signalling (sessionOf (initiateWebRTCBridge env s)) = signalling s
  /\ signalling (sessionOf (acceptTimer finalSdp reply s)) = signalling s.
Proof.
  intros env finalSdp reply s. split; revert s.
  - change (keeps sameSignalling (initiateWebRTCBridge env)).
    unfold_bridge. unfold negotiate.
    keeps_run sameSignalling_refl sameSignalling_trans
              ltac:(intro; reflexivity).
  - change (keeps sameSignalling (acceptTimer finalSdp reply)).
    unfold acceptTimer.
    keeps_run sameSignalling_refl sameSignalling_trans
              ltac:(intro; reflexivity).
Qed.

(** ** Offers, timers and the bridge *)

Lemma initiateWebRTCBridge_without_offer : forall env s,
  truthy (browserOfferSdp s) = false \/ truthy (whatsappOfferSdp s) = false ->
  initiateWebRTCBridge env s = (Returns tt, s, []).
Proof.
  intros env s H. unfold initiateWebRTCBridge, bind, getSession.
  destruct (callInProgress s); [ reflexivity | ].
  destruct H as [H | H]; rewrite H; cbn; rewrite ?orb_true_r; reflexivity.
Qed.

(** X16.  Before the provider offer is there, a browser offer is only
    stored: the session afterwards holds the offer, the socket that sent
    it and, if the browser named one, its call id, and is otherwise what
    it was (same legs and streams, same provider offer, same flag);
    nothing is emitted, posted or scheduled by the handler.  Sending the
    same offer again changes nothing at all. *)
Theorem browser_offer_is_idempotent : forall socket b callId env env' s,
  truthy (whatsappOfferSdp s) = false ->
  browserOffer socket (VStr b) callId env s
  = (Returns tt,
     {| browserPc := browserPc s; browserStream := browserStream s;
        whatsappPc := whatsappPc s; whatsappStream := whatsappStream s;
        browserOfferSdp := VStr b;
        whatsappOfferSdp := whatsappOfferSdp s;
        browserSocket := Some socket;
        currentCallId := if truthy callId then callId else currentCallId s;
        callInProgress := callInProgress s |},
     [])
  /\ browserOffer socket (VStr b) callId env'
                  (sessionOf (browserOffer socket (VStr b) callId env s))
     = (Returns tt, sessionOf (browserOffer socket (VStr b) callId env s), []).
Proof.
  intros socket b callId env env' s Hw.
  assert (Hrun : forall e s0,
             truthy (whatsappOfferSdp s0) = false ->
             browserOffer socket (VStr b) callId e s0
             = (Returns tt, browserOfferStored socket b callId s0, [])).
  { intros e s0 H0. rewrite browserOffer_run.
    apply initiateWebRTCBridge_without_offer. right.
    unfold browserOfferStored. cbv zeta.
    destruct (truthy callId); exact H0. }
  rewrite (Hrun env s Hw). cbn [sessionOf fst snd]. split.
  - unfold browserOfferStored. cbv zeta.
    destruct (truthy callId); reflexivity.
  - rewrite Hrun
      by (unfold browserOfferStored; cbv zeta; destruct (truthy callId);
          exact Hw).
    unfold browserOfferStored. cbv zeta.
    destruct (truthy callId); destruct s; reflexivity.
Qed.

Lemma browser_offer_is_idempotent_witness :
  browserOfferSdp
    (sessionOf (browserOffer socketA (VStr browserSdp) VUndefined happyEnv
                             initialSession))
  = VStr browserSdp.
Proof.
  destruct (browser_offer_is_idempotent socketA browserSdp VUndefined happyEnv
              happyEnv initialSession) as [H _].
  - reflexivity.
  - rewrite H. reflexivity.
Defined.




Lemma initiateWebRTCBridge_sameSignalling : forall env,
  keeps sameSignalling (initiateWebRTCBridge env).
Proof.
  intro env. unfold_bridge. unfold negotiate.
  keeps_run sameSignalling_refl sameSignalling_trans
            ltac:(intro; reflexivity).
Qed.

Lemma negotiate_throws_on_other_offer : forall env s,
  hasNoIncludes (whatsappOfferSdp s) ->
  exists e s1, negotiate env s = (Throws e, s1, []).
Proof.
  intros env s Hv.
  destruct env as [bro wro bt dt wt ba wa pr].
  destruct s as [bpc bst wpc wst bo wo bs cid flag].
  cbn in Hv.
  unfold negotiate, engine, modifiedWhatsappSdpOf, emitToBrowser, emit, tell,
    modify, getSession, ret, raise, bind.
  destruct bro; destruct wo as [ | | [ | ] | n | | | ]; cbn in Hv |- *;
    try contradiction; eexists; eexists; reflexivity.
Qed.

Lemma hasNoIncludes_truthy : forall v, hasNoIncludes v -> truthy v = true.
Proof.
  intros [ | | [ | ] | n | | | ]; cbn; try contradiction; try reflexivity.
  intro H. apply negb_true_iff, Z.eqb_neq. exact H.
Qed.

(** X19.  When what is stored as provider offer is neither a string nor
    an array (a number, [true] or an object from the webhook), a bridging
    attempt that finds a browser offer and a socket starts and fails
    before it has an answer for anyone: it reports
    [Error in WebRTC bridge:], the in-progress flag is false afterwards,
    no [browser-answer] is emitted, no request is posted to the
    provider, and neither the [accept] callback nor the callback that
    forgets the offers is scheduled, so the offers stay stored. *)
Theorem bridge_fails_on_non_string_offer : forall env s socket,
  callInProgress s = false ->
  hasNoIncludes (whatsappOfferSdp s) ->
  truthy (browserOfferSdp s) = true ->
  browserSocket s = Some socket ->
  In (ConsoleError (js "Error in WebRTC bridge:"))
     (traceOf (initiateWebRTCBridge env s))
  /\ callInProgress (sessionOf (initiateWebRTCBridge env s)) = false
  /\ existsb isPost (traceOf (initiateWebRTCBridge env s)) = false
  /\ existsb (isEmitOf "browser-answer") (traceOf (initiateWebRTCBridge env s))
     = false
  /\ existsb isBridgeTimer (traceOf (initiateWebRTCBridge env s)) = false
  /\ signalling (sessionOf (initiateWebRTCBridge env s)) = signalling s.
Proof.
  intros env s socket Hflag Hv Hb Hs.
  split; [ | split; [ | split; [ | split; [ | split ] ] ] ].
  6: { exact (initiateWebRTCBridge_sameSignalling env s). }
  all: rewrite (initiateWebRTCBridge_ready env s socket Hflag Hb
                  (hasNoIncludes_truthy _ Hv) Hs);
    rewrite startBridge_run;
    destruct (negotiate_throws_on_other_offer env (setCallInProgress true s))
      as (e & s1 & ->); [ destruct s; exact Hv | ];
    cbn; first [ reflexivity | left; reflexivity ].
Qed.

Lemma bridge_fails_on_non_string_offer_witness :
  callInProgress (sessionOf (initiateWebRTCBridge happyEnv numberAsOffer))
  = false.
Proof.
  apply (bridge_fails_on_non_string_offer happyEnv numberAsOffer socketA).
  - reflexivity.
  - cbn. discriminate.
  - reflexivity.
  - reflexivity.
Defined.

(** ** The webhook and the session *)

Lemma callEvents_valid : forall body env s,
  carriesCallEvent body = true ->
  callEvents body env s =
  match callEvent (callOf body) env s with
  | (Returns _, s1, t1) => (Returns tt, s1, t1 ++ [SendStatus 200])
  | (Throws _, s1, t1) =>
      (Returns tt, s1,
       t1 ++ [ConsoleError (js "Error processing /call-events webhook:");
              SendStatus 200])
  end.
Proof.
  intros body env s H. unfold carriesCallEvent in H.
  apply andb_true_iff in H. destruct H as [Hp H].
  apply andb_true_iff in H. destruct H as [Hc H].
  apply andb_true_iff in H. destruct H as [Hid Hev].
  unfold callEvents. cbv zeta.
  change (opt (optFirst (opt (optFirst (opt body (js "entry")))
                             (js "changes"))) (js "value"))
    with (webhookValue body).
  unfold dispatch. rewrite Hp. unfold callBranch. cbv zeta.
  change (first (field (webhookValue body) (js "calls"))) with (callOf body).
  rewrite Hc, Hid, Hev. cbn [negb orb].
  unfold tryCatch, bind.
  destruct (callEvent (callOf body) env s) as [[[[] | e] s1] t1];
    cbv beta iota; unfold ret, tell, consoleError; cbv beta iota;
    rewrite ?app_nil_r; reflexivity.
Qed.

Lemma unchanged_refl : forall s, unchanged s s.
Proof. reflexivity. Qed.

Lemma unchanged_trans : forall a b c,
  unchanged a b -> unchanged b c -> unchanged a c.
Proof. unfold unchanged. intros. congruence. Qed.

Lemma sameCallId_refl : forall s, sameCallId s s.
Proof. reflexivity. Qed.

Lemma sameCallId_trans : forall a b c,
  sameCallId a b -> sameCallId b c -> sameCallId a c.
Proof. unfold sameCallId. intros. congruence. Qed.

Lemma callEvents_ignores : forall body env,
  carriesCallEvent body = false ->
  keeps unchanged (callEvents body env).
Proof.
  intros body env H. unfold callEvents. cbv zeta.
  change (opt (optFirst (opt (optFirst (opt body (js "entry")))
                             (js "changes"))) (js "value"))
    with (webhookValue body).
  unfold dispatch, carriesCallEvent in *.
  destruct (present (webhookValue body) "calls").
  - unfold callBranch. cbv zeta.
    change (first (field (webhookValue body) (js "calls")))
      with (callOf body).
    cbn [andb] in H.
    destruct (truthy (callOf body));
      [ destruct (truthy (field (callOf body) (js "id")));
        [ destruct (truthy (field (callOf body) (js "event")));
          [ discriminate H | ] | ] | ];
      cbn [negb orb];
      keeps_run unchanged_refl unchanged_trans idtac.
  - unfold permissionsBranch, statusesBranch, messagesBranch.
    keeps_run unchanged_refl unchanged_trans idtac.
Qed.

Lemma callEvent_call_id : forall call env s,
  currentCallId (sessionOf (callEvent call env s)) = field call (js "id").
Proof.
  intros call env s.
  assert (Hrest : forall (rest : M unit),
             keeps sameCallId rest ->
             currentCallId
               (sessionOf
                  ((modify (setCurrentCallId (field call (js "id"))) ;;; rest) s))
             = field call (js "id")).
  { intros rest Hrest. unfold bind, modify. cbv beta iota.
    specialize (Hrest (setCurrentCallId (field call (js "id")) s)).
    destruct (rest (setCurrentCallId (field call (js "id")) s))
      as [[r s1] t1].
    exact Hrest. }
  unfold callEvent. cbv zeta. apply Hrest.
  keeps_run sameCallId_refl sameCallId_trans ltac:(intro; reflexivity).
  intro s0.
  exact (f_equal (fun x => snd x) (initiateWebRTCBridge_sameSignalling env s0)).
Qed.

(** X20.  The webhook changes the session only for a call event that has
    an id and an event name.  Every other body whose [calls] member is
    not an object (a permission update, a message status, a message, a
    call event without id, something else) leaves the session exactly
    as it was.  A call event with id and event name always stores its id
    as the current call id, whatever the event is and whether or not a
    call is in progress; when the event is neither [connect] nor
    [terminate] that is all it does. *)
Theorem webhook_changes_session_only_for_call_events : forall body env s,
  (callsIsNoObject body ->
   carriesCallEvent body = false -> sessionOf (callEvents body env s) = s)
  /\ (carriesCallEvent body = true ->
      currentCallId (sessionOf (callEvents body env s))
      = field (callOf body) (js "id"))
  /\ (carriesCallEvent body = true ->
      isStr (field (callOf body) (js "event")) (js "connect") = false ->
      isStr (field (callOf body) (js "event")) (js "terminate") = false ->
      sessionOf (callEvents body env s)
      = setCurrentCallId (field (callOf body) (js "id")) s).
Proof.
  intros body env s. split; [ | split ].
  - intros _ H. apply (callEvents_ignores body env H).
  - intro H. rewrite (callEvents_valid body env s H).
    pose proof (callEvent_call_id (callOf body) env s) as Hid.
    destruct (callEvent (callOf body) env s) as [[[[] | e] s1] t1];
      exact Hid.
  - intros H Hc Ht. rewrite (callEvents_valid body env s H).
    unfold callEvent. cbv zeta. rewrite Hc, Ht. reflexivity.
Qed.

Lemma Forall_false_forallb_negb : forall (f : event -> bool) t,
  Forall (fun e => f e = false) t -> forallb (fun e => negb (f e)) t = true.
Proof.
  intros f t H. induction H as [ | e t He _ IH]; [ reflexivity | ].
  cbn. rewrite He, IH. reflexivity.
Qed.

Lemma messagesBranch_without_socket : forall v s,
  browserSocket s = None ->
  Forall notAutoCall (traceOf (messagesBranch v s)).
Proof.
  intros v s Hs. unfold messagesBranch, member, bind, getSession, ioEmit,
    tell, ret, raise. cbv zeta.
  destruct (nullish (first (field v (js "messages")))); cbv beta iota;
    [ constructor | ].
  match goal with |- context [if ?b then _ else _] => destruct b end;
    cbv beta iota; [ | constructor ].
  rewrite Hs. cbn. repeat constructor.
Qed.

(** X21.  The automatic call after a granted permission is scheduled
    only for a connected browser: while no browser socket is stored, no
    webhook body schedules it. *)
Theorem auto_call_needs_a_browser_socket : forall body env s,
  browserSocket s = None ->
  forallb (fun e => negb (isAutoCallTimer e)) (traceOf (callEvents body env s))
  = true.
Proof.
  intros body env s Hs. apply Forall_false_forallb_negb.
  change (Forall notAutoCall (traceOf (callEvents body env s))).
  unfold callEvents. cbv zeta.
  change (opt (optFirst (opt (optFirst (opt body (js "entry")))
                             (js "changes"))) (js "value"))
    with (webhookValue body).
  assert (Hd : Forall notAutoCall (traceOf (dispatch (webhookValue body) env s))).
  { unfold dispatch.
    destruct (present (webhookValue body) "calls").
    - revert s Hs. intros s _. revert s.
      change (emits notAutoCall (callBranch (webhookValue body) env)).
      unfold callBranch, callEvent, initiateWebRTCBridge, startBridge,
        bridgeBody, negotiate, callControl.
      emits_run.
    - destruct (present (webhookValue body) "call_permissions").
      { revert s Hs. intros s _. revert s.
        change (emits notAutoCall
                      (permissionsBranch (webhookValue body) ;;; ret false)).
        unfold permissionsBranch. emits_run. }
      destruct (present (webhookValue body) "statuses").
      { revert s Hs. intros s _. revert s.
        change (emits notAutoCall
                      (statusesBranch (webhookValue body) ;;; ret false)).
        unfold statusesBranch. emits_run. }
      destruct (present (webhookValue body) "messages"); [ | constructor ].
      pose proof (messagesBranch_without_socket (webhookValue body) s Hs) as Hm.
      unfold bind.
      destruct (messagesBranch (webhookValue body) s) as [[[[] | e] s1] t1];
        cbn in Hm |- *; rewrite ?app_nil_r; exact Hm. }
  unfold tryCatch, bind.
  destruct (dispatch (webhookValue body) env s) as [[[[ | ] | e] s1] t1];
    cbn in Hd |- *; rewrite ?app_nil_r; try exact Hd;
    apply Forall_app; split; try exact Hd; repeat constructor.
Qed.

Lemma auto_call_needs_a_browser_socket_witness :
  forallb (fun e => negb (isAutoCallTimer e))
          (traceOf (callEvents
                      (messageBody (permissionReply (js "15550001111")
                                                    (js "accept"))
                                   contactA)
                      happyEnv initialSession)) = true.
Proof.
  apply (auto_call_needs_a_browser_socket
           (messageBody (permissionReply (js "15550001111") (js "accept"))
                        contactA)
           happyEnv initialSession).
  reflexivity.
Defined.






(** X24.  Patching the provider offer twice is patching it once: a
    second pass of lines 675-686 over its own result changes nothing. *)
Theorem modifiedWhatsappSdp_idempotent : forall sdp,
  modifiedWhatsappSdp (modifiedWhatsappSdp sdp) = modifiedWhatsappSdp sdp.
Proof.
  intro sdp.
  destruct (includes (modifiedWhatsappSdp sdp) (js "a=setup:actpass")) eqn:H.
  - apply modifiedWhatsappSdp_unchanged. left. exact H.
  - rewrite modifiedWhatsappSdp_has_setup in H.
    apply orb_false_iff in H. destruct H as [_ Hfp].
    rewrite (modifiedWhatsappSdp_unchanged sdp) by (right; exact Hfp).
    apply modifiedWhatsappSdp_unchanged. right. exact Hfp.
Qed.

(** X25.  The answer of the provider leg is sent as it is when it has
    no [a=setup:actpass] and already has [a=ice-options:trickle]: lines
    750-755 change nothing then. *)
Theorem finalWaSdp_leaves_a_finished_answer : forall sdp,
  includes sdp (js "a=setup:actpass") = false ->
  includes sdp (js "a=ice-options:trickle") = true ->
  finalWaSdp sdp = sdp.
Proof.
  intros sdp Hsetup Htrickle. unfold finalWaSdp. cbv zeta.
  rewrite (replace_absent sdp _ _ Hsetup), Htrickle. reflexivity.
Qed.

Lemma finalWaSdp_leaves_a_finished_answer_witness :
  finalWaSdp (js "v=0" ++ CRLF ++ js "a=ice-options:trickle" ++ CRLF
              ++ js "a=setup:active" ++ CRLF)
  = js "v=0" ++ CRLF ++ js "a=ice-options:trickle" ++ CRLF
    ++ js "a=setup:active" ++ CRLF.
Proof.
  apply (finalWaSdp_leaves_a_finished_answer
           (js "v=0" ++ CRLF ++ js "a=ice-options:trickle" ++ CRLF
            ++ js "a=setup:active" ++ CRLF));
    vm_compute; reflexivity.
Defined.



(** X27.  When the provider rejects a call with an error message that is
    a number, [true] or an object, [initiateDirectCall] does not return
    a failure: building the user-facing text throws a TypeError after
    the [connect] request went out. *)
Theorem initiateDirectCall_throws_on_other_message :
  forall phoneNumber env s sdp m rd,
  directOffer env = Some sdp ->
  directReply env = Rejected m rd ->
  hasNoIncludes (errorMessageOf rd) ->
  initiateDirectCall phoneNumber env s
  = (Throws (TypeError (js "errorMsg.includes is not a function")), s,
     [Post ByInitiateDirectCall (Connect phoneNumber sdp)]).
Proof.
  intros phoneNumber env s sdp m rd Hdo Hdr Hmsg.
  destruct env as [dof dr]. cbn in Hdo, Hdr. subst dof dr.
  unfold initiateDirectCall, axiosPost, tryCatch, bind, tell, raise.
  cbn [directOffer directReply]. cbv beta iota zeta.
  cbn [responseDataOf messageOf].
  destruct (errorMessageOf rd) as [ | | [ | ] | n | | | ]; cbn in Hmsg;
    try contradiction.
  - reflexivity.
  - unfold orElse. cbn [truthy].
    destruct (Z.eqb n 0) eqn:Hn; [ apply Z.eqb_eq in Hn; contradiction | ].
    reflexivity.
  - reflexivity.
Qed.

Lemma initiateDirectCall_throws_on_other_message_witness :
  resultOf (initiateDirectCall (js "15550001111") numberMessageEnv
                               initialSession)
  = Throws (TypeError (js "errorMsg.includes is not a function")).
Proof.
  rewrite (initiateDirectCall_throws_on_other_message (js "15550001111")
             numberMessageEnv initialSession (js "v=0" ++ CRLF)
             (js "Request failed with status code 500")
             (VObj [(js "error",
                     VObj [(js "code", VNum 1); (js "message", VNum 500)])])).
  - reflexivity.
  - reflexivity.
  - reflexivity.
  - cbn. discriminate.
Defined.
